(** * NewTube: the Mux webhook receiver ([src/app/api/videos/webhook/route.ts])

    A shallow embedding of the [POST] route handler that reconciles the
    transcoding provider's asset events with the rows of the [videos] table,
    and the properties of the reconciliation flow proved (or refuted) on it.

    Layout:
    - [JS]       JSON values as the handler sees them, truthiness, property
                 reads, binary64 numbers and [Math.round];
    - [videos]   the rows of the table and the three statements the handler
                 issues (select .. limit 1, update .. set, delete);
    - the effects: the table, a clock and the list of outbound calls, in a
      monad whose exceptions keep the effects made before the throw; what
      the outside services answer is a parameter ([World]);
    - the five status handlers, [process] and [POST], statement by statement;
    - [Json]     an executable reader and printer for a fragment of JSON, and
                 the test worlds built on it, which run the handler from the
                 bytes of a request;
    - the vocabulary of the statements, the lemmas on the handler (among them
      a small Hoare-style rule set for relations the table keeps), the
      claims C1 to C10, and further properties of the handler, X1 to X17:
      what it answers before the [switch], on a lookup that fails or finds
      nothing and on an event without data, what each handler writes and
      which calls it makes, and what every request leaves of the table.

    The handler reads the payload through casts that check nothing.  Where
    a field is only tested for truthiness the model follows JavaScript on
    every JSON value; where a field reaches the store or the arithmetic, the
    model follows it at the type the cast declares and stops ([IllTyped]) on
    a truthy value of another type. *)

From Stdlib Require Import ZArith List String Ascii Bool Lia RelationClasses.
From Stdlib Require Import Floats.SpecFloat.
Import ListNotations.

Local Open Scope string_scope.
Local Open Scope Z_scope.

(* ===================================================================== *)
(** * JavaScript values                                                   *)
(* ===================================================================== *)

Module JS.

(** A JS [number] is an IEEE 754 binary64 value. *)
Definition number : Type := spec_float.

Definition prec : Z := 53.
Definition emax : Z := 1024.

(** [m * 2^e], rounded to binary64. *)
Definition number_of (m e : Z) : number := binary_normalize prec emax m e false.

(** The JS operator [*] on numbers. *)
Definition mul (x y : number) : number := SFmul prec emax x y.

(** ToBoolean on a number: [0], [-0] and [NaN] are falsy. *)
Definition number_truthy (x : number) : bool :=
  match x with
  | S754_zero _ | S754_nan => false
  | _ => true
  end.


(** [Math.round]: the integer nearest to [x], ties towards +Infinity, that is
    [floor (x + 1/2)] computed exactly.  [None] stands for the results that
    are no integer: [NaN], [Infinity] and [-Infinity].  ([-0] reads as 0.) *)
Definition Math_round (x : number) : option Z :=
  match x with
  | S754_zero _ => Some 0
  | S754_finite s m e =>
      let v := cond_Zopp s (Zpos m) in
      Some (if 0 <=? e then v * 2 ^ e else (2 * v + 2 ^ (- e)) / 2 ^ (1 - e))
  | _ => None
  end.

#[local] Set Warnings "-register-all".

(** What [request.json()] yields.  An object keeps its members in order; a
    member read takes the last binding of a key, as [JSON.parse] does. *)
Inductive JValue : Type :=
| JNull
| JBool (b : bool)
| JNum (x : number)
| JStr (s : string)
| JArr (xs : list JValue)
| JObj (members : list (string * JValue)).

(** The result of a read: [None] is [undefined]. *)
Definition value : Type := option JValue.

Fixpoint member (k : string) (members : list (string * JValue)) : value :=
  match members with
  | [] => None
  | (k', v) :: rest =>
      match member k rest with
      | Some w => Some w
      | None => if String.eqb k k' then Some v else None
      end
  end.

(** ToBoolean. *)
Definition truthy (v : value) : bool :=
  match v with
  | None | Some JNull => false
  | Some (JBool b) => b
  | Some (JNum x) => number_truthy x
  | Some (JStr s) => negb (String.eqb s EmptyString)
  | Some (JArr _) | Some (JObj _) => true
  end.

(** [v.k] for a value that is neither [undefined] nor [null], and for the keys
    the handler reads ([type], [data], [upload_id], [id], [status],
    [playback_ids], [duration], [asset_id]): none of them is a property of a
    primitive's or an array's prototype, so only objects answer. *)
Definition prop (v : JValue) (k : string) : value :=
  match v with
  | JObj members => member k members
  | _ => None
  end.

(** [v[0]] for a value that is neither [undefined] nor [null]. *)
Definition index0 (v : JValue) : value :=
  match v with
  | JArr xs => hd_error xs
  | JStr (String c _) => Some (JStr (String c EmptyString))
  | JObj members => member "0" members
  | _ => None
  end.

(** [v?.k] and [v?.[0]]. *)
Definition opt_prop (v : value) (k : string) : value :=
  match v with
  | None | Some JNull => None
  | Some j => prop j k
  end.

Definition opt_index0 (v : value) : value :=
  match v with
  | None | Some JNull => None
  | Some j => index0 j
  end.

End JS.

Import JS.

(* ===================================================================== *)
(** * The videos table                                                    *)
(* ===================================================================== *)

Module videos.

(** Modelled from the spec: the [videos] table of [@/db/schema], which is not
    among the sources.  The columns are the ones the handler names (the
    spec's VideoRecord: uploadReference is [muxUploadId], assetReference is
    [muxAssetId], processingStatus is [muxStatus], playbackReference is
    [muxPlaybackId], durationMillis is [duration], the two locations are the
    (key, url) pairs, trackReference and trackStatus); [rest] stands for every
    other column of a row. *)
Record row : Type := mk_row {
  id : string;
  muxUploadId : option string;
  muxAssetId : option string;
  muxStatus : option string;
  muxPlaybackId : option string;
  muxTrackId : option string;
  muxTrackStatus : option string;
  duration : Z;
  thumbnailUrl : option string;
  thumbnailKey : option string;
  previewUrl : option string;
  previewKey : option string;
  updatedAt : Z;
  rest : list (string * string)
}.

(** The columns a [where(eq(column, value))] names. *)
Inductive column : Type := Id | MuxUploadId | MuxAssetId.

(** The object given to [.set(..)], after drizzle has dropped the keys whose
    value is [undefined]: [None] leaves the column as it is.  [set_duration]
    is [Some None] for a number that is no integer (Infinity), which the
    integer column refuses. *)
Record update_set : Type := mk_set {
  set_muxAssetId : option string;
  set_muxStatus : option string;
  set_muxPlaybackId : option string;
  set_muxTrackId : option string;
  set_muxTrackStatus : option string;
  set_duration : option (option Z);
  set_thumbnailUrl : option string;
  set_thumbnailKey : option string;
  set_previewUrl : option string;
  set_previewKey : option string;
  set_updatedAt : option Z
}.

Definition eq (c : column) (v : string) (r : row) : bool :=
  match c with
  | Id => String.eqb (id r) v
  | MuxUploadId =>
      match muxUploadId r with Some x => String.eqb x v | None => false end
  | MuxAssetId =>
      match muxAssetId r with Some x => String.eqb x v | None => false end
  end.

Definition assign {A : Type} (new : option A) (old : option A) : option A :=
  match new with Some x => Some x | None => old end.

Definition assign_duration (new : option (option Z)) (old : Z) : Z :=
  match new with Some (Some z) => z | _ => old end.

Definition assign_time (new : option Z) (old : Z) : Z :=
  match new with Some z => z | None => old end.

Definition apply_set (p : update_set) (r : row) : row :=
  {| id := id r;
     muxUploadId := muxUploadId r;
     muxAssetId := assign (set_muxAssetId p) (muxAssetId r);
     muxStatus := assign (set_muxStatus p) (muxStatus r);
     muxPlaybackId := assign (set_muxPlaybackId p) (muxPlaybackId r);
     muxTrackId := assign (set_muxTrackId p) (muxTrackId r);
     muxTrackStatus := assign (set_muxTrackStatus p) (muxTrackStatus r);
     duration := assign_duration (set_duration p) (duration r);
     thumbnailUrl := assign (set_thumbnailUrl p) (thumbnailUrl r);
     thumbnailKey := assign (set_thumbnailKey p) (thumbnailKey r);
     previewUrl := assign (set_previewUrl p) (previewUrl r);
     previewKey := assign (set_previewKey p) (previewKey r);
     updatedAt := assign_time (set_updatedAt p) (updatedAt r);
     rest := rest r |}.

(** [select().from(videos).where(eq(c, v)).limit(1)]: the first match. *)
Definition select_one (c : column) (v : string) (t : list row) : option row :=
  find (eq c v) t.

(** [update(videos).set(p).where(eq(c, v))]: every match is rewritten. *)
Definition update_where (c : column) (v : string) (p : update_set) (t : list row)
  : list row :=
  map (fun r => if eq c v r then apply_set p r else r) t.

(** [delete(videos).where(eq(c, v))]. *)
Definition delete_where (c : column) (v : string) (t : list row) : list row :=
  filter (fun r => negb (eq c v r)) t.

(** The set object with no key. *)
Definition no_set : update_set :=
  mk_set None None None None None None None None None None None.

End videos.

(* ===================================================================== *)
(** * The world outside the handler, and its effects                      *)
(* ===================================================================== *)

(** [utapi.uploadFilesFromUrl(url)]: it throws, or answers without [data], or
    answers with the (key, url) of the stored copy. *)
Inductive UploadResult : Type :=
| UploadThrows
| UploadNoData
| UploadData (key url : string).

(** Everything the handler calls and does not define.  The answers of the
    outside services are indexed by the clock (the number of outbound calls
    made so far), so the same call may be answered differently each time. *)
Record World : Type := mk_world {
  (** [process.env.MUX_WEBHOOK_SECRET], the constant [SIGNING_SECRET] *)
  SIGNING_SECRET : option string;
  (** [request.json()]: [None] when it rejects *)
  request_json : string -> option JValue;
  JSON_stringify : JValue -> string;
  (** [mux.webhooks.verifySignature(body, header, secret)]: [false] when it
      throws *)
  verifySignature : string -> string -> string -> bool;
  (** whether the statement sent to the database at this tick throws
      (connection lost, constraint violated, value out of a column's range) *)
  db_throws : nat -> bool;
  uploadFilesFromUrl : nat -> string -> UploadResult;
  (** whether [utapi.deleteFiles(key)] throws at this tick *)
  deleteFiles_throws : nat -> string -> bool;
  (** [new Date()] at this tick *)
  now : nat -> Z
}.

(** The outbound calls, in the order they are made. *)
Inductive Call : Type :=
| CallSelect (c : videos.column) (v : string)
| CallUpdate (c : videos.column) (v : string) (p : videos.update_set)
| CallDelete (c : videos.column) (v : string)
| CallUpload (url : string)
| CallDeleteFiles (key : string).

Record State : Type := mk_state {
  table : list videos.row;
  clock : nat;
  calls : list Call
}.

(** A computation ends with a value, or with an exception thrown (the effects
    made before the throw stay), or it has read a payload field whose value
    is not of the type the handler's cast declares ([IllTyped]: what the
    drivers do with such a value is outside this model). *)
Inductive Outcome (A : Type) : Type :=
| Ok (a : A) (s : State)
| Thrown (s : State)
| IllTyped.

Arguments Ok {A} a s.
Arguments Thrown {A} s.
Arguments IllTyped {A}.

Definition M (A : Type) : Type := State -> Outcome A.

Definition ret {A : Type} (a : A) : M A := fun s => Ok a s.

Definition bind {A B : Type} (m : M A) (k : A -> M B) : M B :=
  fun s =>
    match m s with
    | Ok a s' => k a s'
    | Thrown s' => Thrown s'
    | IllTyped => IllTyped
    end.

Definition throw {A : Type} : M A := fun s => Thrown s.

Definition ill_typed {A : Type} : M A := fun _ => IllTyped.

(** [try { m } catch { h }] *)
Definition try_catch {A : Type} (m : M A) (h : M A) : M A :=
  fun s =>
    match m s with
    | Thrown s' => h s'
    | o => o
    end.

Declare Scope webhook_scope.
Delimit Scope webhook_scope with webhook.
Notation "x <- m ;; k" := (bind m (fun x => k))
  (at level 61, m at next level, right associativity) : webhook_scope.
Notation "m ;;; k" := (bind m (fun _ => k))
  (at level 61, right associativity) : webhook_scope.
Local Open Scope webhook_scope.

(** One outbound call: it is recorded and the clock advances, whether or not
    it throws. *)
Definition called (c : Call) (s : State) : State :=
  {| table := table s; clock := S (clock s); calls := calls s ++ [c] |}.

Definition with_table (t : list videos.row) (s : State) : State :=
  {| table := t; clock := clock s; calls := calls s |}.

Section Effects.

Variable w : World.

Definition db_select (c : videos.column) (v : string) : M (option videos.row) :=
  fun s =>
    let s' := called (CallSelect c v) s in
    if db_throws w (clock s) then Thrown s'
    else Ok (videos.select_one c v (table s)) s'.

Definition refused (p : videos.update_set) : bool :=
  match videos.set_duration p with
  | Some None => true
  | _ => false
  end.

Definition db_update (c : videos.column) (v : string) (p : videos.update_set)
  : M unit :=
  fun s =>
    let s' := called (CallUpdate c v p) s in
    if db_throws w (clock s) || refused p then Thrown s'
    else Ok tt (with_table (videos.update_where c v p (table s)) s').

Definition db_delete (c : videos.column) (v : string) : M unit :=
  fun s =>
    let s' := called (CallDelete c v) s in
    if db_throws w (clock s) then Thrown s'
    else Ok tt (with_table (videos.delete_where c v (table s)) s').

Definition utapi_uploadFilesFromUrl (url : string) : M (option (string * string)) :=
  fun s =>
    let s' := called (CallUpload url) s in
    match uploadFilesFromUrl w (clock s) url with
    | UploadThrows => Thrown s'
    | UploadNoData => Ok None s'
    | UploadData key u => Ok (Some (key, u)) s'
    end.

Definition utapi_deleteFiles (key : string) : M unit :=
  fun s =>
    let s' := called (CallDeleteFiles key) s in
    if deleteFiles_throws w (clock s) key then Thrown s' else Ok tt s'.

(** [new Date()] *)
Definition new_Date : M Z := fun s => Ok (now w (clock s)) s.

End Effects.

(* ===================================================================== *)
(** * The route handler                                                   *)
(* ===================================================================== *)

Record Request : Type := mk_request {
  (** [headers().get("mux-signature")] *)
  muxSignature : option string;
  (** the bytes of the body *)
  raw_body : string
}.

Record Response : Type := mk_response {
  status : Z;
  text : string
}.

(** How a [case] block of the [switch] ends: with a [return] of its own, or
    at its [break]. *)
Inductive Flow : Type :=
| Return (r : Response)
| Break.

(** [v.k]: a TypeError when [v] is [undefined] or [null]. *)
Definition get (v : value) (k : string) : M value :=
  match v with
  | None | Some JNull => throw
  | Some j => ret (prop j k)
  end.

(** A field the cast declares a string, read where it is known to be truthy. *)
Definition as_string (v : value) : M string :=
  match v with
  | Some (JStr s) => ret s
  | _ => ill_typed
  end.

(** A field the cast declares a string, which may be absent. *)
Definition as_optional_string (v : value) : M (option string) :=
  match v with
  | None => ret None
  | Some (JStr s) => ret (Some s)
  | Some _ => ill_typed
  end.

Definition thousand : number := number_of 1000 0.

(** [data.duration ? Math.round(data.duration * 1000) : 0] *)
Definition duration_millis (d : value) : M (option Z) :=
  if truthy d then
    match d with
    | Some (JNum x) => ret (Math_round (mul x thousand))
    | _ => ill_typed
    end
  else ret (Some 0).

Definition string_truthy (s : string) : bool := negb (String.eqb s EmptyString).

Definition option_truthy (o : option string) : bool :=
  match o with
  | Some s => string_truthy s
  | None => false
  end.

(** [if (url && key) { updateData.url = url; updateData.key = key }]: the
    pair an upload left in the two variables, when both are truthy. *)
Definition uploaded_pair (u : option (string * string)) : option (string * string) :=
  match u with
  | Some (key, url) => if string_truthy url && string_truthy key then Some (key, url) else None
  | None => None
  end.

Section Handlers.

Variable w : World.

Definition internal_server_error : Response := mk_response 500 "Internal server error".
Definition video_not_found : Response := mk_response 404 "Video not found".

(** One of the two uploads of the ready handler, in its own [try]: the
    variables stay [undefined] when the call throws or answers without data. *)
Definition mirror (url : string) : M (option (string * string)) :=
  try_catch
    (uploaded <- utapi_uploadFilesFromUrl w url ;;
     match uploaded with
     | None => throw
     | Some stored => ret (Some stored)
     end)
    (ret None).

(** [case "video.asset.created"] *)
Definition asset_created (payload : JValue) : M Flow :=
  try_catch
    (let data := prop payload "data" in
     upload_id <- get data "upload_id" ;;
     if negb (truthy upload_id) then
       ret (Return (mk_response 400 "No upload ID found"))
     else
       upload_id <- as_string upload_id ;;
       existingVideo <- db_select w videos.MuxUploadId upload_id ;;
       match existingVideo with
       | None => ret (Return video_not_found)
       | Some _ =>
           id <- bind (get data "id") as_optional_string ;;
           st <- bind (get data "status") as_optional_string ;;
           date <- new_Date w ;;
           db_update w videos.MuxUploadId upload_id
             (videos.mk_set id st None None None None None None None None (Some date)) ;;;
           ret Break
       end)
    (ret (Return internal_server_error)).

(** [case "video.asset.ready"] *)
Definition asset_ready (payload : JValue) : M Flow :=
  try_catch
    (let data := prop payload "data" in
     upload_id <- get data "upload_id" ;;
     if negb (truthy upload_id) then
       ret (Return (mk_response 400 "Missing upload ID"))
     else
       playback_ids <- get data "playback_ids" ;;
       let playbackId := opt_prop (opt_index0 playback_ids) "id" in
       if negb (truthy playbackId) then
         ret (Return (mk_response 400 "Missing playback ID"))
       else
         upload_id <- as_string upload_id ;;
         playbackId <- as_string playbackId ;;
         existingVideo <- db_select w videos.MuxUploadId upload_id ;;
         match existingVideo with
         | None => ret (Return video_not_found)
         | Some _ =>
             let tempThumbnailUrl := "https://image.mux.com/" ++ playbackId ++ "/thumbnail.jpg" in
             let tempPreviewUrl := "https://image.mux.com/" ++ playbackId ++ "/animated.gif" in
             duration <- bind (get data "duration") duration_millis ;;
             thumbnail <- mirror tempThumbnailUrl ;;
             preview <- mirror tempPreviewUrl ;;
             st <- bind (get data "status") as_optional_string ;;
             id <- bind (get data "id") as_optional_string ;;
             date <- new_Date w ;;
             db_update w videos.MuxUploadId upload_id
               (videos.mk_set id st (Some playbackId) None None (Some duration)
                  (option_map snd (uploaded_pair thumbnail))
                  (option_map fst (uploaded_pair thumbnail))
                  (option_map snd (uploaded_pair preview))
                  (option_map fst (uploaded_pair preview))
                  (Some date)) ;;;
             ret Break
         end)
    (ret (Return internal_server_error)).

(** [case "video.asset.errored"] *)
Definition asset_errored (payload : JValue) : M Flow :=
  try_catch
    (let data := prop payload "data" in
     upload_id <- get data "upload_id" ;;
     if negb (truthy upload_id) then
       ret (Return (mk_response 400 "Missing upload ID"))
     else
       upload_id <- as_string upload_id ;;
       existingVideo <- db_select w videos.MuxUploadId upload_id ;;
       match existingVideo with
       | None => ret (Return video_not_found)
       | Some _ =>
           st <- bind (get data "status") as_optional_string ;;
           date <- new_Date w ;;
           db_update w videos.MuxUploadId upload_id
             (videos.mk_set None st None None None None None None None None (Some date)) ;;;
           ret Break
       end)
    (ret (Return internal_server_error)).

(** [if (key) { try { await utapi.deleteFiles(key) } catch { } }] *)
Definition cleanup (key : option string) : M unit :=
  match key with
  | Some k =>
      if string_truthy k then try_catch (utapi_deleteFiles w k) (ret tt) else ret tt
  | None => ret tt
  end.

(** [case "video.asset.deleted"]: its [catch] has no [return]. *)
Definition asset_deleted (payload : JValue) : M Flow :=
  try_catch
    (let data := prop payload "data" in
     upload_id <- get data "upload_id" ;;
     if negb (truthy upload_id) then
       ret (Return (mk_response 400 "Missing upload ID"))
     else
       upload_id <- as_string upload_id ;;
       videoToDelete <- db_select w videos.MuxUploadId upload_id ;;
       match videoToDelete with
       | Some video =>
           cleanup (videos.thumbnailKey video) ;;;
           cleanup (videos.previewKey video) ;;;
           db_delete w videos.Id (videos.id video) ;;;
           ret Break
       | None =>
           db_delete w videos.MuxUploadId upload_id ;;;
           ret Break
       end)
    (ret Break).

(** [case "video.asset.track.ready"] *)
Definition asset_track_ready (payload : JValue) : M Flow :=
  try_catch
    (let data := prop payload "data" in
     assetId <- get data "asset_id" ;;
     if negb (truthy assetId) then
       ret (Return (mk_response 400 "Missing asset ID"))
     else
       trackId <- get data "id" ;;
       st <- get data "status" ;;
       assetId <- as_string assetId ;;
       existingVideo <- db_select w videos.MuxAssetId assetId ;;
       match existingVideo with
       | None => ret (Return video_not_found)
       | Some _ =>
           trackId <- as_optional_string trackId ;;
           st <- as_optional_string st ;;
           date <- new_Date w ;;
           db_update w videos.MuxAssetId assetId
             (videos.mk_set None None None trackId st None None None None None (Some date)) ;;;
           ret Break
       end)
    (ret (Return internal_server_error)).

(** The [switch (eventType)]: [===] against the five names, else [default]. *)
Definition dispatch (eventType : value) (payload : JValue) : M Flow :=
  match eventType with
  | Some (JStr t) =>
      if String.eqb t "video.asset.created" then asset_created payload
      else if String.eqb t "video.asset.ready" then asset_ready payload
      else if String.eqb t "video.asset.errored" then asset_errored payload
      else if String.eqb t "video.asset.deleted" then asset_deleted payload
      else if String.eqb t "video.asset.track.ready" then asset_track_ready payload
      else ret Break
  | _ => ret Break
  end.

(** From [const eventType = payload.type] to the last [return] of the [try]. *)
Definition process (payload : JValue) : M Response :=
  eventType <- get (Some payload) "type" ;;
  if negb (truthy eventType) then
    ret (mk_response 400 "Missing event type")
  else
    flow <- dispatch eventType payload ;;
    match flow with
    | Return r => ret r
    | Break => ret (mk_response 200 "Webhook processed successfully")
    end.

Definition POST (request : Request) : M Response :=
  try_catch
    (if negb (option_truthy (SIGNING_SECRET w)) then
       ret (mk_response 500 "Server configuration error")
     else if negb (option_truthy (muxSignature request)) then
       ret (mk_response 401 "No signature found")
     else
       match request_json w (raw_body request) with
       | None => ret (mk_response 400 "Invalid JSON payload")
       | Some payload =>
           let body := JSON_stringify w payload in
           if negb (verifySignature w body
                      (match muxSignature request with Some h => h | None => EmptyString end)
                      (match SIGNING_SECRET w with Some k => k | None => EmptyString end))
           then ret (mk_response 401 "Invalid signature")
           else process payload
       end)
    (ret internal_server_error).

End Handlers.

(* ===================================================================== *)
(** * An executable JSON reader and printer, and the test worlds          *)
(* ===================================================================== *)

(** [request.json()] and [JSON.stringify] belong to the runtime, and the
    handler is parametric in them (the fields of [World]).  To run the
    handler on the bytes of a request, this module gives both for a fragment
    of JSON on which they agree with the runtime:
    - texts of ASCII characters; strings with the two-character escapes only;
    - numbers written without an exponent whose value is a binary64 number
      with an exact decimal expansion of at most 15 significant digits, at
      least 10^-6 in magnitude when not zero (on these the shortest decimal
      that reads back as the number, which [JSON.stringify] prints, is the
      expansion itself);
    - objects without a repeated key and without a key that starts with a
      digit (so the runtime keeps the members in the order of the text).
    [parse] answers [None] on a text outside the fragment. *)
Module Json.

Definition quote : ascii := "034"%char.
Definition backslash : ascii := "092"%char.

Definition code (c : ascii) : Z := Z.of_N (N_of_ascii c).

Definition is_ws (c : ascii) : bool :=
  let n := code c in (n =? 32) || (n =? 9) || (n =? 10) || (n =? 13).

Definition is_digit (c : ascii) : bool :=
  let n := code c in (48 <=? n) && (n <=? 57).

Definition digit_char (d : Z) : ascii := ascii_of_N (Z.to_N (48 + d)).

(** ** Printing *)

Fixpoint digits (fuel : nat) (n : Z) (acc : string) : string :=
  match fuel with
  | O => acc
  | S fuel' =>
      let acc' := String (digit_char (n mod 10)) acc in
      if n <? 10 then acc' else digits fuel' (n / 10) acc'
  end.

(** The decimal digits of a natural number below 10^400. *)
Definition decimal (n : Z) : string := digits 400 n EmptyString.

(** The last [k] decimal digits of [n]. *)
Fixpoint fixed (k : nat) (n : Z) (acc : string) : string :=
  match k with
  | O => acc
  | S k' => fixed k' (n / 10) (String (digit_char (n mod 10)) acc)
  end.

Fixpoint strip_zeros (k : nat) (d : Z) : Z * nat :=
  match k with
  | O => (d, O)
  | S k' => if d mod 10 =? 0 then strip_zeros k' (d / 10) else (d, k)
  end.

(** The exact decimal expansion [d / 10^k] of the magnitude of a finite
    number, with [k] least, when it is one the fragment prints. *)
Definition expansion (x : number) : option (Z * nat) :=
  match x with
  | S754_finite _ m e =>
      let '(d, k) :=
        if 0 <=? e then (Zpos m * 2 ^ e, O)
        else strip_zeros (Z.to_nat (- e)) (Zpos m * 5 ^ (- e)) in
      if (d <? 10 ^ 15) && (10 ^ Z.of_nat k <=? d * 10 ^ 6)
      then Some (d, k) else None
  | _ => None
  end.

(** [NaN] and the infinities print as [null], as in the runtime; so does a
    finite number outside the fragment, which [parse] never yields. *)
Definition print_number (x : number) : string :=
  match x with
  | S754_zero _ => "0"
  | S754_finite s _ _ =>
      match expansion x with
      | Some (d, k) =>
          let p := 10 ^ Z.of_nat k in
          (if s then "-" else EmptyString)
            ++ decimal (d / p)
            ++ match k with
               | O => EmptyString
               | _ => "." ++ fixed k (d mod p) EmptyString
               end
      | None => "null"
      end
  | _ => "null"
  end.

Definition hex_char (d : Z) : ascii :=
  if d <? 10 then digit_char d else ascii_of_N (Z.to_N (87 + d)).

Definition escape (c : ascii) : string :=
  let n := code c in
  if Ascii.eqb c quote then String backslash (String quote EmptyString)
  else if Ascii.eqb c backslash then String backslash (String backslash EmptyString)
  else if n =? 8 then String backslash "b"
  else if n =? 12 then String backslash "f"
  else if n =? 10 then String backslash "n"
  else if n =? 13 then String backslash "r"
  else if n =? 9 then String backslash "t"
  else if n <? 32 then
    String backslash ("u00" ++ String (hex_char (n / 16)) (String (hex_char (n mod 16)) EmptyString))
  else String c EmptyString.

Fixpoint escaped (s : string) : string :=
  match s with
  | EmptyString => EmptyString
  | String c r => escape c ++ escaped r
  end.

Definition quoted (s : string) : string :=
  String quote (escaped s ++ String quote EmptyString).

Fixpoint join (parts : list string) : string :=
  match parts with
  | [] => EmptyString
  | [p] => p
  | p :: rest => p ++ "," ++ join rest
  end.

(** [JSON.stringify(v)], with no indentation. *)
Fixpoint stringify (v : JValue) : string :=
  match v with
  | JNull => "null"
  | JBool true => "true"
  | JBool false => "false"
  | JNum x => print_number x
  | JStr s => quoted s
  | JArr xs => "[" ++ join (map stringify xs) ++ "]"
  | JObj members =>
      "{" ++ join (map (fun kv => quoted (fst kv) ++ ":" ++ stringify (snd kv)) members) ++ "}"
  end.

(** ** Reading *)

Fixpoint skip_ws (s : string) : string :=
  match s with
  | String c r => if is_ws c then skip_ws r else s
  | EmptyString => s
  end.

Definition unescape (c : ascii) : option ascii :=
  if Ascii.eqb c quote then Some quote
  else if Ascii.eqb c backslash then Some backslash
  else if Ascii.eqb c "/" then Some "/"%char
  else if Ascii.eqb c "b" then Some (ascii_of_N 8)
  else if Ascii.eqb c "f" then Some (ascii_of_N 12)
  else if Ascii.eqb c "n" then Some (ascii_of_N 10)
  else if Ascii.eqb c "r" then Some (ascii_of_N 13)
  else if Ascii.eqb c "t" then Some (ascii_of_N 9)
  else None.

Definition cons_char (c : ascii) (r : option (string * string)) : option (string * string) :=
  match r with
  | Some (s, tail) => Some (String c s, tail)
  | None => None
  end.

(** The characters of a string, read from after its opening quote. *)
Fixpoint read_string (s : string) : option (string * string) :=
  match s with
  | EmptyString => None
  | String c r =>
      if Ascii.eqb c quote then Some (EmptyString, r)
      else if Ascii.eqb c backslash then
        match r with
        | String e r' =>
            match unescape e with
            | Some d => cons_char d (read_string r')
            | None => None
            end
        | EmptyString => None
        end
      else if (32 <=? code c) && (code c <? 127) then cons_char c (read_string r)
      else None
  end.

(** A run of digits: their value after [acc], how many, and what follows. *)
Fixpoint read_digits (s : string) (acc : Z) (count : nat) : Z * nat * string :=
  match s with
  | String c r =>
      if is_digit c then read_digits r (10 * acc + (code c - 48)) (S count)
      else (acc, count, s)
  | EmptyString => (acc, count, s)
  end.

(** The number [n / 10^k], negated when [neg], if the fragment has it: the
    quotient of two integers that are binary64 numbers is rounded once, and
    the literal is kept when the quotient is exact. *)
Definition number_of_decimal (neg : bool) (n : Z) (k : nat) : option number :=
  if n =? 0 then Some (S754_zero neg)
  else if (n <? 2 ^ 53) && (Z.of_nat k <=? 22) then
    let x := SFdiv prec emax (number_of (if neg then - n else n) 0)
                              (number_of (10 ^ Z.of_nat k) 0) in
    match expansion x with
    | Some (d, j) => if d * 10 ^ Z.of_nat k =? n * 10 ^ Z.of_nat j then Some x else None
    | None => None
    end
  else None.

Definition starts_with_digit (s : string) : bool :=
  match s with
  | String c _ => is_digit c
  | EmptyString => false
  end.

(** A number literal: [-]? int [. digits]?, with no exponent. *)
Definition read_number (s : string) : option (number * string) :=
  let '(neg, s1) :=
    match s with
    | String c r => if Ascii.eqb c "-" then (true, r) else (false, s)
    | EmptyString => (false, s)
    end in
  let '(n, count, s2) := read_digits s1 0 O in
  let leading_zero :=
    match s1 with
    | String c _ => Ascii.eqb c "0" && (1 <? Z.of_nat count)
    | EmptyString => false
    end in
  if (Nat.eqb count O) || leading_zero then None
  else
    let '(n', k, s3) :=
      match s2 with
      | String c r =>
          if Ascii.eqb c "." then
            let '(m, j, r') := read_digits r n O in (m, j, if Nat.eqb j O then s2 else r')
          else (n, O, s2)
      | EmptyString => (n, O, s2)
      end in
    match s3 with
    | String c _ =>
        if Ascii.eqb c "." || Ascii.eqb c "e" || Ascii.eqb c "E" then None
        else option_map (fun x => (x, s3)) (number_of_decimal neg n' k)
    | EmptyString => option_map (fun x => (x, s3)) (number_of_decimal neg n' k)
    end.

Fixpoint strip_prefix (p s : string) : option string :=
  match p, s with
  | EmptyString, _ => Some s
  | String a p', String b s' => if Ascii.eqb a b then strip_prefix p' s' else None
  | String _ _, EmptyString => None
  end.

Fixpoint distinct (keys : list string) : bool :=
  match keys with
  | [] => true
  | k :: rest => negb (existsb (String.eqb k) rest) && distinct rest
  end.

Definition keys_ok (members : list (string * JValue)) : bool :=
  distinct (map fst members) && forallb (fun kv => negb (starts_with_digit (fst kv))) members.

Fixpoint read_value (fuel : nat) (s : string) : option (JValue * string) :=
  match fuel with
  | O => None
  | S fuel' =>
      match skip_ws s with
      | EmptyString => None
      | String c r =>
          if Ascii.eqb c quote then
            option_map (fun sr => (JStr (fst sr), snd sr)) (read_string r)
          else if Ascii.eqb c "[" then
            match skip_ws r with
            | String "]" r' => Some (JArr [], r')
            | _ => option_map (fun vr => (JArr (fst vr), snd vr)) (read_elements fuel' r)
            end
          else if Ascii.eqb c "{" then
            match skip_ws r with
            | String "}" r' => Some (JObj [], r')
            | _ =>
                match read_members fuel' r with
                | Some (members, r') =>
                    if keys_ok members then Some (JObj members, r') else None
                | None => None
                end
            end
          else if Ascii.eqb c "t" then option_map (pair (JBool true)) (strip_prefix "true" (String c r))
          else if Ascii.eqb c "f" then option_map (pair (JBool false)) (strip_prefix "false" (String c r))
          else if Ascii.eqb c "n" then option_map (pair JNull) (strip_prefix "null" (String c r))
          else option_map (fun xr => (JNum (fst xr), snd xr)) (read_number (String c r))
      end
  end
with read_elements (fuel : nat) (s : string) : option (list JValue * string) :=
  match fuel with
  | O => None
  | S fuel' =>
      match read_value fuel' s with
      | Some (v, r) =>
          match skip_ws r with
          | String "," r' =>
              option_map (fun vr => (v :: fst vr, snd vr)) (read_elements fuel' r')
          | String "]" r' => Some ([v], r')
          | _ => None
          end
      | None => None
      end
  end
with read_members (fuel : nat) (s : string) : option (list (string * JValue) * string) :=
  match fuel with
  | O => None
  | S fuel' =>
      match skip_ws s with
      | String c r =>
          if Ascii.eqb c quote then
            match read_string r with
            | Some (k, r1) =>
                match skip_ws r1 with
                | String ":" r2 =>
                    match read_value fuel' r2 with
                    | Some (v, r3) =>
                        match skip_ws r3 with
                        | String "," r4 =>
                            option_map (fun mr => ((k, v) :: fst mr, snd mr))
                                       (read_members fuel' r4)
                        | String "}" r4 => Some ([(k, v)], r4)
                        | _ => None
                        end
                    | None => None
                    end
                | _ => None
                end
            | None => None
            end
          else None
      | EmptyString => None
      end
  end.

(** [JSON.parse(text)] on the fragment. *)
Definition parse (text : string) : option JValue :=
  match read_value (2 * String.length text + 2) text with
  | Some (v, r) =>
      match skip_ws r with
      | EmptyString => Some v
      | _ => None
      end
  | None => None
  end.

End Json.

(** ** Test worlds *)

(** A stand-in for the provider's signer: the header a holder of [secret]
    computes for [body].  Like an HMAC it is a function of the secret and of
    the exact bytes signed, and different bodies get different headers. *)
Definition sign (secret body : string) : string := secret ++ "." ++ body.

Definition verify (body header secret : string) : bool :=
  String.eqb header (sign secret body).

Definition test_secret : string := "whsec_test".

(** A world with the codec above, a database that never throws, file
    deletion that never throws, and the given upload service. *)
Definition test_world (uploads : nat -> string -> UploadResult) : World :=
  {| SIGNING_SECRET := Some test_secret;
     request_json := Json.parse;
     JSON_stringify := Json.stringify;
     verifySignature := verify;
     db_throws := fun _ => false;
     uploadFilesFromUrl := uploads;
     deleteFiles_throws := fun _ _ => false;
     now := fun tick => 1000 + Z.of_nat tick |}.

(** An upload service that stores every copy under a fresh key. *)
Definition fresh_keys (tick : nat) (url : string) : UploadResult :=
  UploadData ("key_" ++ Json.decimal (Z.of_nat tick)) ("https://utfs.io/f/" ++ Json.decimal (Z.of_nat tick)).

(** An upload service that is down. *)
Definition no_uploads (tick : nat) (url : string) : UploadResult := UploadThrows.

(** A quoted JSON string. *)
Definition q (s : string) : string := Json.quoted s.

(** A row as the upload-initiation flow leaves it. *)
Definition new_row (id upload_id : string) : videos.row :=
  {| videos.id := id;
     videos.muxUploadId := Some upload_id;
     videos.muxAssetId := None;
     videos.muxStatus := Some "waiting";
     videos.muxPlaybackId := None;
     videos.muxTrackId := None;
     videos.muxTrackStatus := None;
     videos.duration := 0;
     videos.thumbnailUrl := None;
     videos.thumbnailKey := None;
     videos.previewUrl := None;
     videos.previewKey := None;
     videos.updatedAt := 0;
     videos.rest := [("title", "Untitled")] |}.

Definition initial (t : list videos.row) : State :=
  {| table := t; clock := O; calls := [] |}.

(** A request whose header is the signature of [signed] and whose body is
    [raw]. *)
Definition signed_request (signed raw : string) : Request :=
  {| muxSignature := Some (sign test_secret signed); raw_body := raw |}.

(* ===================================================================== *)
(** * Reading the handler                                                 *)
(* ===================================================================== *)

(** The payload of a request that passes the checks before [process]: the
    secret is configured, the header is there, the body parses, and the
    signature of the re-serialized payload verifies. *)
Definition authenticated (w : World) (request : Request) : option JValue :=
  match SIGNING_SECRET w, muxSignature request with
  | Some secret, Some header =>
      if string_truthy secret && string_truthy header then
        match request_json w (raw_body request) with
        | Some payload =>
            if verifySignature w (JSON_stringify w payload) header secret
            then Some payload else None
        | None => None
        end
      else None
  | _, _ => None
  end.

Definition typed_string (v : value) : option (option string) :=
  match v with
  | None => Some None
  | Some (JStr s) => Some (Some s)
  | Some _ => None
  end.

Definition typed_number (v : value) : option (option number) :=
  match v with
  | None => Some None
  | Some (JNum x) => Some (Some x)
  | Some _ => None
  end.

(** A well-formed [video.asset.ready] event, at the types of the cast. *)
Record ReadyEvent : Type := mk_ready {
  ready_upload_id : string;
  ready_playback_id : string;
  ready_asset_id : option string;
  ready_status : option string;
  ready_duration : option number
}.

Definition view_ready (payload : JValue) : option ReadyEvent :=
  match prop payload "data" with
  | Some data =>
      match prop data "upload_id",
            opt_prop (opt_index0 (prop data "playback_ids")) "id",
            typed_string (prop data "id"),
            typed_string (prop data "status"),
            typed_number (prop data "duration") with
      | Some (JStr uid), Some (JStr pid), Some aid, Some st, Some d =>
          if string_truthy uid && string_truthy pid
          then Some (mk_ready uid pid aid st d) else None
      | _, _, _, _, _ => None
      end
  | None => None
  end.

(** [duration ? Math.round(duration * 1000) : 0] on a typed duration. *)
Definition millis_of (d : option number) : option Z :=
  match d with
  | Some x => if number_truthy x then Math_round (mul x thousand) else Some 0
  | None => Some 0
  end.

(** What a mirror call leaves in its two variables. *)
Definition upload_answer (r : UploadResult) : option (string * string) :=
  match r with
  | UploadData key url => Some (key, url)
  | _ => None
  end.

Definition thumbnail_url (playbackId : string) : string :=
  "https://image.mux.com/" ++ playbackId ++ "/thumbnail.jpg".

Definition preview_url (playbackId : string) : string :=
  "https://image.mux.com/" ++ playbackId ++ "/animated.gif".

Definition ready_set (ev : ReadyEvent) (thumbnail preview : option (string * string))
  (date : Z) : videos.update_set :=
  videos.mk_set (ready_asset_id ev) (ready_status ev) (Some (ready_playback_id ev))
    None None (Some (millis_of (ready_duration ev)))
    (option_map snd (uploaded_pair thumbnail)) (option_map fst (uploaded_pair thumbnail))
    (option_map snd (uploaded_pair preview)) (option_map fst (uploaded_pair preview))
    (Some date).

(** The ready handler on a well-formed event, call by call. *)
Definition ready_outcome (w : World) (ev : ReadyEvent) (s : State) : Outcome Flow :=
  let uid := ready_upload_id ev in
  let s1 := called (CallSelect videos.MuxUploadId uid) s in
  if db_throws w (clock s) then Ok (Return internal_server_error) s1
  else
    match videos.select_one videos.MuxUploadId uid (table s) with
    | None => Ok (Return video_not_found) s1
    | Some _ =>
        let url1 := thumbnail_url (ready_playback_id ev) in
        let url2 := preview_url (ready_playback_id ev) in
        let s2 := called (CallUpload url1) s1 in
        let s3 := called (CallUpload url2) s2 in
        let p := ready_set ev (upload_answer (uploadFilesFromUrl w (clock s1) url1))
                           (upload_answer (uploadFilesFromUrl w (clock s2) url2))
                           (now w (clock s3)) in
        let s4 := called (CallUpdate videos.MuxUploadId uid p) s3 in
        if db_throws w (clock s3) || refused p then Ok (Return internal_server_error) s4
        else Ok Break (with_table (videos.update_where videos.MuxUploadId uid p (table s)) s4)
    end.

(** The rows a [where(eq(c, v))] selects are related by [P] to what they
    become; the other rows are what they were. *)
Definition updated_rows (c : videos.column) (v : string)
  (P : videos.row -> videos.row -> Prop) (t t' : list videos.row) : Prop :=
  Forall2 (fun r r' => if videos.eq c v r then P r r' else r' = r) t t'.

(** A computation keeps a relation between the table before and after it,
    whether it ends with a value or with an exception. *)
Definition preserves {A : Type} (R : list videos.row -> list videos.row -> Prop)
  (m : M A) : Prop :=
  forall s,
    match m s with
    | Ok _ s' | Thrown s' => R (table s) (table s')
    | IllTyped => True
    end.

Definition ok_200 : Response := mk_response 200 "Webhook processed successfully".

(* ===================================================================== *)
(** * Events, states and observations used in the statements              *)
(* ===================================================================== *)

(** An [video.asset.errored] event as the provider serializes it, and the
    same event with blanks between its tokens. *)
Definition errored_text : string :=
  "{" ++ q "type" ++ ":" ++ q "video.asset.errored" ++ "," ++ q "data" ++ ":{"
      ++ q "upload_id" ++ ":" ++ q "up_1" ++ "," ++ q "status" ++ ":" ++ q "errored" ++ "}}".

Definition errored_text_spaced : string :=
  "{ " ++ q "type" ++ ": " ++ q "video.asset.errored" ++ ", " ++ q "data" ++ ": { "
       ++ q "upload_id" ++ ": " ++ q "up_1" ++ ", " ++ q "status" ++ ": " ++ q "errored" ++ " } }".

(** The status of the response and the [muxStatus] column afterwards. *)
Definition status_and_muxStatus (o : Outcome Response) : option (Z * list (option string)) :=
  match o with
  | Ok r s => Some (status r, map videos.muxStatus (table s))
  | _ => None
  end.

(** The [video.asset.ready] event of the scenario, as parsed and as sent. *)
Definition scenario_payload : JValue :=
  JObj [("type", JStr "video.asset.ready");
        ("data", JObj [("upload_id", JStr "up_1");
                       ("id", JStr "asset_1");
                       ("status", JStr "ready");
                       ("playback_ids", JArr [JObj [("id", JStr "pb_1")]]);
                       ("duration", JNum (number_of 25 (-1)))])].

Definition scenario_text : string :=
  "{" ++ q "type" ++ ":" ++ q "video.asset.ready" ++ "," ++ q "data" ++ ":{"
      ++ q "upload_id" ++ ":" ++ q "up_1" ++ ","
      ++ q "id" ++ ":" ++ q "asset_1" ++ ","
      ++ q "status" ++ ":" ++ q "ready" ++ ","
      ++ q "playback_ids" ++ ":[{" ++ q "id" ++ ":" ++ q "pb_1" ++ "}],"
      ++ q "duration" ++ ":12.5}}".

(** The set object of the ready handler at state [s]. *)
Definition ready_set_at (w : World) (ev : ReadyEvent) (s : State) : videos.update_set :=
  ready_set ev
    (upload_answer (uploadFilesFromUrl w (S (clock s)) (thumbnail_url (ready_playback_id ev))))
    (upload_answer (uploadFilesFromUrl w (S (S (clock s))) (preview_url (ready_playback_id ev))))
    (now w (S (S (S (clock s))))).



(** A row without its [updatedAt]. *)
Definition forget_updatedAt (r : videos.row) : videos.row :=
  {| videos.id := videos.id r;
     videos.muxUploadId := videos.muxUploadId r;
     videos.muxAssetId := videos.muxAssetId r;
     videos.muxStatus := videos.muxStatus r;
     videos.muxPlaybackId := videos.muxPlaybackId r;
     videos.muxTrackId := videos.muxTrackId r;
     videos.muxTrackStatus := videos.muxTrackStatus r;
     videos.duration := videos.duration r;
     videos.thumbnailUrl := videos.thumbnailUrl r;
     videos.thumbnailKey := videos.thumbnailKey r;
     videos.previewUrl := videos.previewUrl r;
     videos.previewKey := videos.previewKey r;
     videos.updatedAt := 0;
     videos.rest := videos.rest r |}.

(** A row without its [updatedAt] and without its two mirrored locations. *)
Definition forget_updatedAt_and_locations (r : videos.row) : videos.row :=
  {| videos.id := videos.id r;
     videos.muxUploadId := videos.muxUploadId r;
     videos.muxAssetId := videos.muxAssetId r;
     videos.muxStatus := videos.muxStatus r;
     videos.muxPlaybackId := videos.muxPlaybackId r;
     videos.muxTrackId := videos.muxTrackId r;
     videos.muxTrackStatus := videos.muxTrackStatus r;
     videos.duration := videos.duration r;
     videos.thumbnailUrl := None;
     videos.thumbnailKey := None;
     videos.previewUrl := None;
     videos.previewKey := None;
     videos.updatedAt := 0;
     videos.rest := videos.rest r |}.

Definition status_and_thumbnailKey (o : Outcome Response) : option (Z * list (option string)) :=
  match o with
  | Ok r s => Some (status r, map videos.thumbnailKey (table s))
  | _ => None
  end.

Definition deleted_text : string :=
  "{" ++ q "type" ++ ":" ++ q "video.asset.deleted" ++ "," ++ q "data" ++ ":{"
      ++ q "upload_id" ++ ":" ++ q "up_missing" ++ "}}".

(** The status columns of a row after a ready event. *)
Definition primary_fields (ev : ReadyEvent) (aid st : string) (z : Z) (r' : videos.row) : Prop :=
  videos.muxStatus r' = Some st /\
  videos.muxPlaybackId r' = Some (ready_playback_id ev) /\
  videos.muxAssetId r' = Some aid /\
  videos.duration r' = z.

(** An upload service that stores the thumbnail and fails on the preview. *)
Definition thumbnail_only (tick : nat) (url : string) : UploadResult :=
  if String.eqb url (thumbnail_url "pb_1")
  then UploadData "thumb_key" "https://utfs.io/f/thumb_key"
  else UploadThrows.

(** The five kinds the [switch] handles and the key each handler checks. *)
Definition handled_kinds : list string :=
  ["video.asset.created"; "video.asset.ready"; "video.asset.errored";
   "video.asset.deleted"; "video.asset.track.ready"].

Definition correlation_key (kind : string) : string :=
  if String.eqb kind "video.asset.track.ready" then "asset_id" else "upload_id".

Definition status_and_calls (o : Outcome Response) : option (Z * list Call) :=
  match o with
  | Ok r s => Some (status r, calls s)
  | _ => None
  end.

(** An [video.asset.created] event with its upload id and neither asset id
    nor status. *)
Definition created_without_fields_text : string :=
  "{" ++ q "type" ++ ":" ++ q "video.asset.created" ++ "," ++ q "data" ++ ":{"
      ++ q "upload_id" ++ ":" ++ q "up_1" ++ "}}".

Definition ready_without_playback_text : string :=
  "{" ++ q "type" ++ ":" ++ q "video.asset.ready" ++ "," ++ q "data" ++ ":{"
      ++ q "upload_id" ++ ":" ++ q "up_1" ++ "," ++ q "playback_ids" ++ ":[]}}".



(** Every row of [t'] is a row of [t] (by its [id]) whose [muxAssetId] is
    what it was, or is the [allowed] value. *)
Definition stems (allowed : option string) (t t' : list videos.row) : Prop :=
  forall r', In r' t' ->
    exists r, In r t /\ videos.id r = videos.id r' /\
      (videos.muxAssetId r' = videos.muxAssetId r \/
       exists a, allowed = Some a /\ videos.muxAssetId r' = Some a).


(** A row whose asset id is already "asset_1". *)
Definition row_with_asset : videos.row :=
  videos.apply_set
    (videos.mk_set (Some "asset_1") (Some "ready") None None None None None None None None None)
    (new_row "v1" "up_1").

Definition created_other_asset_text : string :=
  "{" ++ q "type" ++ ":" ++ q "video.asset.created" ++ "," ++ q "data" ++ ":{"
      ++ q "upload_id" ++ ":" ++ q "up_1" ++ ","
      ++ q "id" ++ ":" ++ q "asset_2" ++ ","
      ++ q "status" ++ ":" ++ q "preparing" ++ "}}".

(** [row_with_asset] after the errored event of [errored_text]. *)
Definition errored_row : videos.row :=
  videos.apply_set
    (videos.mk_set None (Some "errored") None None None None None None None None (Some 1001))
    row_with_asset.

Definition errored_state : State :=
  {| table := [errored_row];
     clock := 2;
     calls := [CallSelect videos.MuxUploadId "up_1";
               CallUpdate videos.MuxUploadId "up_1"
                 (videos.mk_set None (Some "errored") None None None None None None None None
                                (Some 1001))] |}.

(** Two tables agree once [f] has erased some columns of their rows. *)
Definition same_under (f : videos.row -> videos.row) (t t' : list videos.row) : Prop :=
  map f t' = map f t.

(** The columns each handler's set object names, erased. *)
Definition forget_created (r : videos.row) : videos.row :=
  {| videos.id := videos.id r;
     videos.muxUploadId := videos.muxUploadId r;
     videos.muxAssetId := None;
     videos.muxStatus := None;
     videos.muxPlaybackId := videos.muxPlaybackId r;
     videos.muxTrackId := videos.muxTrackId r;
     videos.muxTrackStatus := videos.muxTrackStatus r;
     videos.duration := videos.duration r;
     videos.thumbnailUrl := videos.thumbnailUrl r;
     videos.thumbnailKey := videos.thumbnailKey r;
     videos.previewUrl := videos.previewUrl r;
     videos.previewKey := videos.previewKey r;
     videos.updatedAt := 0;
     videos.rest := videos.rest r |}.

Definition forget_errored (r : videos.row) : videos.row :=
  {| videos.id := videos.id r;
     videos.muxUploadId := videos.muxUploadId r;
     videos.muxAssetId := videos.muxAssetId r;
     videos.muxStatus := None;
     videos.muxPlaybackId := videos.muxPlaybackId r;
     videos.muxTrackId := videos.muxTrackId r;
     videos.muxTrackStatus := videos.muxTrackStatus r;
     videos.duration := videos.duration r;
     videos.thumbnailUrl := videos.thumbnailUrl r;
     videos.thumbnailKey := videos.thumbnailKey r;
     videos.previewUrl := videos.previewUrl r;
     videos.previewKey := videos.previewKey r;
     videos.updatedAt := 0;
     videos.rest := videos.rest r |}.

Definition forget_track (r : videos.row) : videos.row :=
  {| videos.id := videos.id r;
     videos.muxUploadId := videos.muxUploadId r;
     videos.muxAssetId := videos.muxAssetId r;
     videos.muxStatus := videos.muxStatus r;
     videos.muxPlaybackId := videos.muxPlaybackId r;
     videos.muxTrackId := None;
     videos.muxTrackStatus := None;
     videos.duration := videos.duration r;
     videos.thumbnailUrl := videos.thumbnailUrl r;
     videos.thumbnailKey := videos.thumbnailKey r;
     videos.previewUrl := videos.previewUrl r;
     videos.previewKey := videos.previewKey r;
     videos.updatedAt := 0;
     videos.rest := videos.rest r |}.

Definition forget_ready (r : videos.row) : videos.row :=
  {| videos.id := videos.id r;
     videos.muxUploadId := videos.muxUploadId r;
     videos.muxAssetId := None;
     videos.muxStatus := None;
     videos.muxPlaybackId := None;
     videos.muxTrackId := videos.muxTrackId r;
     videos.muxTrackStatus := videos.muxTrackStatus r;
     videos.duration := 0;
     videos.thumbnailUrl := None;
     videos.thumbnailKey := None;
     videos.previewUrl := None;
     videos.previewKey := None;
     videos.updatedAt := 0;
     videos.rest := videos.rest r |}.

(** ** Vocabulary of the further properties *)

(** The three handlers that look a row up by one key and send one update, on
    an event whose key is [key], call by call: [set_at] is the set object,
    given what [new Date()] answers. *)
Definition keyed_outcome (w : World) (c : videos.column) (key : string)
  (set_at : Z -> videos.update_set) (s : State) : Outcome Flow :=
  let s1 := called (CallSelect c key) s in
  if db_throws w (clock s) then Ok (Return internal_server_error) s1
  else
    match videos.select_one c key (table s) with
    | None => Ok (Return video_not_found) s1
    | Some _ =>
        let p := set_at (now w (clock s1)) in
        let s2 := called (CallUpdate c key p) s1 in
        if db_throws w (clock s1) || refused p then Ok (Return internal_server_error) s2
        else Ok Break (with_table (videos.update_where c key p (table s)) s2)
    end.

(** The set objects of the three handlers. *)
Definition created_set (aid st : option string) (date : Z) : videos.update_set :=
  videos.mk_set aid st None None None None None None None None (Some date).

Definition errored_set (st : option string) (date : Z) : videos.update_set :=
  videos.mk_set None st None None None None None None None None (Some date).

Definition track_set (trackId st : option string) (date : Z) : videos.update_set :=
  videos.mk_set None None None trackId st None None None None None (Some date).

(** A string a handler accepts as a key: present, a string, not empty. *)
Definition key_of (c : videos.column) (v : value) : option (videos.column * string) :=
  match v with
  | Some (JStr k) => if string_truthy k then Some (c, k) else None
  | _ => None
  end.

(** The lookup an event of one of the four updating kinds leads to, once it
    has passed the checks of its handler: the column and the key. *)
Definition lookup_of (payload : JValue) : option (videos.column * string) :=
  match prop payload "type" with
  | Some (JStr kind) =>
      let data := prop payload "data" in
      if String.eqb kind "video.asset.created" || String.eqb kind "video.asset.errored" then
        key_of videos.MuxUploadId (opt_prop data "upload_id")
      else if String.eqb kind "video.asset.ready" then
        match opt_prop (opt_index0 (opt_prop data "playback_ids")) "id" with
        | Some (JStr playbackId) =>
            if string_truthy playbackId
            then key_of videos.MuxUploadId (opt_prop data "upload_id") else None
        | _ => None
        end
      else if String.eqb kind "video.asset.track.ready" then
        key_of videos.MuxAssetId (opt_prop data "asset_id")
      else None
  | _ => None
  end.

(** What [POST] answers once a request is authenticated and its event is of
    a kind the [switch] names. *)
Definition answer (o : Outcome Flow) : Outcome Response :=
  match o with
  | Ok (Return r) s' => Ok r s'
  | Ok Break s' => Ok ok_200 s'
  | Thrown s' => Thrown s'
  | IllTyped => IllTyped
  end.

(** The (key, url) columns of an asset after a ready event: the pair the
    upload answered when both are truthy, else the pair the row had. *)
Definition stored_pair (a : UploadResult) (key url : option string)
  : option string * option string :=
  match uploaded_pair (upload_answer a) with
  | Some (k, u) => (Some k, Some u)
  | None => (key, url)
  end.

(** The [deleteFiles] calls of the deleted handler for a row: one for each
    of its two keys that is truthy, the thumbnail first. *)
Definition cleanup_call (key : option string) : list Call :=
  match key with
  | Some k => if string_truthy k then [CallDeleteFiles k] else []
  | None => []
  end.

Definition cleanup_calls (video : videos.row) : list Call :=
  (cleanup_call (videos.thumbnailKey video) ++ cleanup_call (videos.previewKey video))%list.

(** A [case] block that ends with a [return] of its own answers 400, 404 or
    500 and leaves the table as it was; so does one that throws. *)
Definition settles (m : M Flow) : Prop :=
  forall s,
    match m s with
    | Ok (Return r) s' => In (status r) [400; 404; 500] /\ table s' = table s
    | Ok Break _ => True
    | Thrown s' => table s' = table s
    | IllTyped => True
    end.

(** A computation that leaves the table as it was. *)
Definition reads_only {A : Type} (m : M A) : Prop := preserves Logic.eq m.

(** A row has each (key, url) pair whole: both columns set or both empty. *)
Definition whole (key url : option string) : Prop :=
  match key, url with
  | Some _, Some _ | None, None => True
  | _, _ => False
  end.

Definition pairs_whole (r : videos.row) : Prop :=
  whole (videos.thumbnailKey r) (videos.thumbnailUrl r) /\
  whole (videos.previewKey r) (videos.previewUrl r).

(** If every row of [t] has its pairs whole, so has every row of [t']. *)
Definition keeps_pairs_whole (t t' : list videos.row) : Prop :=
  Forall pairs_whole t -> Forall pairs_whole t'.

(** A row without the columns the handlers write: what is left is its [id],
    its [muxUploadId] and the columns the handlers never name. *)
Definition forget_written (r : videos.row) : videos.row :=
  {| videos.id := videos.id r;
     videos.muxUploadId := videos.muxUploadId r;
     videos.muxAssetId := None;
     videos.muxStatus := None;
     videos.muxPlaybackId := None;
     videos.muxTrackId := None;
     videos.muxTrackStatus := None;
     videos.duration := 0;
     videos.thumbnailUrl := None;
     videos.thumbnailKey := None;
     videos.previewUrl := None;
     videos.previewKey := None;
     videos.updatedAt := 0;
     videos.rest := videos.rest r |}.

(** [t'] is [t] with some rows removed and the others as they were. *)
Definition rows_removed (t t' : list videos.row) : Prop :=
  exists keep : videos.row -> bool, t' = filter keep t.

(** A world like [test_world] whose database throws at the call made at
    [tick] and answers at every other. *)
Definition failing_at (tick : nat) (uploads : nat -> string -> UploadResult) : World :=
  {| SIGNING_SECRET := Some test_secret;
     request_json := Json.parse;
     JSON_stringify := Json.stringify;
     verifySignature := verify;
     db_throws := Nat.eqb tick;
     uploadFilesFromUrl := uploads;
     deleteFiles_throws := fun _ _ => false;
     now := fun tick => 1000 + Z.of_nat tick |}.

(** A track-ready event for the asset of [row_with_asset], and a deleted
    event for its upload. *)
Definition track_ready_text : string :=
  "{" ++ q "type" ++ ":" ++ q "video.asset.track.ready" ++ "," ++ q "data" ++ ":{"
      ++ q "asset_id" ++ ":" ++ q "asset_1" ++ ","
      ++ q "id" ++ ":" ++ q "track_1" ++ ","
      ++ q "status" ++ ":" ++ q "ready" ++ "}}".

Definition deleted_up_1_text : string :=
  "{" ++ q "type" ++ ":" ++ q "video.asset.deleted" ++ "," ++ q "data" ++ ":{"
      ++ q "upload_id" ++ ":" ++ q "up_1" ++ "}}".

(** An event of a kind the [switch] does not name, and one without a kind. *)
Definition upload_created_text : string :=
  "{" ++ q "type" ++ ":" ++ q "video.upload.created" ++ "," ++ q "data" ++ ":{"
      ++ q "id" ++ ":" ++ q "up_1" ++ "}}".

Definition untyped_text : string :=
  "{" ++ q "data" ++ ":{" ++ q "upload_id" ++ ":" ++ q "up_1" ++ "}}".

(** A row whose thumbnail has been mirrored and whose preview has not. *)
Definition row_with_thumbnail : videos.row :=
  videos.apply_set
    (videos.mk_set None None None None None None
                   (Some "https://utfs.io/f/thumb_key") (Some "thumb_key") None None None)
    row_with_asset.

(** The state [thumbnail_only] leaves after the event of [scenario_text]. *)
Definition ready_state : State :=
  {| table := [new_row "v0" "up_0";
               videos.apply_set
                 (videos.mk_set (Some "asset_1") (Some "ready") (Some "pb_1") None None
                    (Some (Some 12500))
                    (Some "https://utfs.io/f/thumb_key") (Some "thumb_key") None None
                    (Some 1003))
                 (new_row "v1" "up_1")];
     clock := 4;
     calls := [CallSelect videos.MuxUploadId "up_1";
               CallUpload "https://image.mux.com/pb_1/thumbnail.jpg";
               CallUpload "https://image.mux.com/pb_1/animated.gif";
               CallUpdate videos.MuxUploadId "up_1"
                 (videos.mk_set (Some "asset_1") (Some "ready") (Some "pb_1") None None
                    (Some (Some 12500))
                    (Some "https://utfs.io/f/thumb_key") (Some "thumb_key") None None
                    (Some 1003))] |}.

(** The state the event of [deleted_up_1_text] leaves. *)
Definition deleted_state : State :=
  {| table := [new_row "v0" "up_0"];
     clock := 3;
     calls := [CallSelect videos.MuxUploadId "up_1"; CallDeleteFiles "thumb_key";
               CallDelete videos.Id "v1"] |}.

(** Events without [data], and with [data] null. *)
Definition created_without_data_text : string :=
  "{" ++ q "type" ++ ":" ++ q "video.asset.created" ++ "}".

Definition deleted_without_data_text : string :=
  "{" ++ q "type" ++ ":" ++ q "video.asset.deleted" ++ "," ++ q "data" ++ ":null}".

(* ===================================================================== *)
(** * Lemmas on the handler                                               *)
(* ===================================================================== *)

(** [Math_round] is rounding to the nearest integer, ties upwards: for a
    finite [x = v * 2^e] with [e < 0], the result [z] satisfies
    [z - 1/2 <= x < z + 1/2], stated here after multiplication by
    [2 * 2^(-e)]. *)
Lemma Math_round_nearest (sg : bool) (m : positive) (e z : Z) :
  e < 0 ->
  Math_round (S754_finite sg m e) = Some z ->
  (2 * z - 1) * 2 ^ (- e) <= 2 * cond_Zopp sg (Zpos m) < (2 * z + 1) * 2 ^ (- e).
Proof.
  intros He H. unfold Math_round in H.
  destruct (0 <=? e) eqn:E; [apply Z.leb_le in E; lia|].
  set (v := cond_Zopp sg (Z.pos m)) in *.
  assert (Hz : (2 * v + 2 ^ (- e)) / 2 ^ (1 - e) = z) by congruence.
  clear H.
  assert (Hp : 0 < 2 ^ (- e)) by (apply Z.pow_pos_nonneg; lia).
  assert (Hq : 2 ^ (1 - e) = 2 * 2 ^ (- e)).
  { replace (1 - e) with (Z.succ (- e)) by lia. apply Z.pow_succ_r. lia. }
  rewrite Hq in Hz.
  assert (Hd := Z.div_mod (2 * v + 2 ^ (- e)) (2 * 2 ^ (- e)) ltac:(lia)).
  assert (Hm := Z.mod_pos_bound (2 * v + 2 ^ (- e)) (2 * 2 ^ (- e)) ltac:(lia)).
  rewrite Hz in Hd. nia.
Qed.

(** On an integer ([0 <= e]) [Math_round] is the identity. *)
Lemma Math_round_integer (sg : bool) (m : positive) (e : Z) :
  0 <= e ->
  Math_round (S754_finite sg m e) = Some (cond_Zopp sg (Zpos m) * 2 ^ e).
Proof.
  intros He. unfold Math_round. apply Z.leb_le in He. rewrite He. reflexivity.
Qed.

(** The codec on the scenario: the text parses to the payload, and the
    payload prints as the text. *)
Lemma scenario_text_parses : Json.parse scenario_text = Some scenario_payload.
Proof. vm_compute. reflexivity. Qed.

Lemma scenario_payload_prints : Json.stringify scenario_payload = scenario_text.
Proof. vm_compute. reflexivity. Qed.

(** Blanks between tokens are lost in the round trip. *)
Lemma spaced_text_is_normalized :
  option_map Json.stringify (Json.parse errored_text_spaced) = Some errored_text.
Proof. vm_compute. reflexivity. Qed.

Lemma POST_authenticated (w : World) (request : Request) (payload : JValue) (s : State) :
  authenticated w request = Some payload ->
  POST w request s = try_catch (process w payload) (ret internal_server_error) s.
Proof.
  unfold authenticated, POST, try_catch, option_truthy.
  destruct (SIGNING_SECRET w) as [secret|]; [|discriminate].
  destruct (muxSignature request) as [header|]; [|discriminate].
  destruct (string_truthy secret); [|discriminate].
  destruct (string_truthy header); [|discriminate]. simpl.
  destruct (request_json w (raw_body request)) as [p|]; [|discriminate].
  destruct (verifySignature w (JSON_stringify w p) header secret); [|discriminate].
  intros H; injection H as ->. reflexivity.
Qed.

Ltac run :=
  cbv beta iota zeta delta
    [try_catch bind get ret throw ill_typed as_string new_Date
     db_select db_update db_delete utapi_uploadFilesFromUrl utapi_deleteFiles
     called with_table prop];
  cbn [table clock calls].

Lemma as_optional_string_typed (v : value) (o : option string) (s : State) :
  typed_string v = Some o -> as_optional_string v s = Ok o s.
Proof.
  destruct v as [[| | |x| |]|]; cbn; intros H; try discriminate; injection H as <-; reflexivity.
Qed.

Lemma duration_millis_typed (v : value) (d : option number) (s : State) :
  typed_number v = Some d -> duration_millis v s = Ok (millis_of d) s.
Proof.
  destruct v as [[| |x| | |]|]; cbn; intros H; try discriminate; injection H as <-;
    [|reflexivity].
  unfold duration_millis, millis_of. cbn. destruct (number_truthy x); reflexivity.
Qed.

Lemma mirror_run (w : World) (url : string) (s : State) :
  mirror w url s
  = Ok (upload_answer (uploadFilesFromUrl w (clock s) url)) (called (CallUpload url) s).
Proof.
  unfold mirror. run. destruct (uploadFilesFromUrl w _ url); reflexivity.
Qed.

Lemma asset_ready_outcome (w : World) (payload : JValue) (ev : ReadyEvent) (s : State) :
  view_ready payload = Some ev ->
  asset_ready w payload s = ready_outcome w ev s.
Proof.
  unfold view_ready, asset_ready.
  destruct (prop payload "data") as [data|]; [|discriminate].
  destruct data as [| | | |xs|members]; try discriminate.
  cbn [prop].
  destruct (member "upload_id" members) as [[| | |uid| |]|] eqn:Euid; try discriminate.
  destruct (opt_prop (opt_index0 (member "playback_ids" members)) "id")
    as [[| | |pid| |]|] eqn:Epid; try discriminate.
  destruct (typed_string (member "id" members)) as [aid|] eqn:Eaid; [|discriminate].
  destruct (typed_string (member "status" members)) as [st|] eqn:Est; [|discriminate].
  destruct (typed_number (member "duration" members)) as [d|] eqn:Ed; [|discriminate].
  destruct (string_truthy uid) eqn:Tuid; [|discriminate].
  destruct (string_truthy pid) eqn:Tpid; [|discriminate].
  cbn [andb]. intros H; injection H as <-.
  unfold string_truthy in Tuid, Tpid.
  unfold ready_outcome. cbn [ready_upload_id ready_playback_id].
  run. rewrite Euid. cbn [truthy]. rewrite Tuid. cbv beta iota delta [negb].
  rewrite Epid. cbn [truthy]. rewrite Tpid. cbv beta iota delta [negb].
  destruct (db_throws w _); [reflexivity|].
  destruct (videos.select_one videos.MuxUploadId uid _); [|reflexivity].
  rewrite (duration_millis_typed _ _ _ Ed). cbv beta iota.
  rewrite !mirror_run. cbv beta iota.
  rewrite (as_optional_string_typed _ _ _ Est). cbv beta iota.
  rewrite (as_optional_string_typed _ _ _ Eaid). cbv beta iota.
  run. unfold thumbnail_url, preview_url, ready_set, refused.
  cbn [videos.set_duration ready_duration ready_asset_id ready_status ready_playback_id].
  destruct (db_throws w _); [reflexivity|]. cbn [orb].
  destruct (millis_of d); reflexivity.
Qed.

Lemma process_dispatch (w : World) (payload : JValue) (t : string) (s : State) :
  prop payload "type" = Some (JStr t) ->
  string_truthy t = true ->
  process w payload s =
  match dispatch w (Some (JStr t)) payload s with
  | Ok (Return r) s' => Ok r s'
  | Ok Break s' => Ok ok_200 s'
  | Thrown s' => Thrown s'
  | IllTyped => IllTyped
  end.
Proof.
  intros Ht Htruthy. unfold process.
  destruct payload as [| | | | |members]; try discriminate.
  run. cbn [prop] in Ht. rewrite Ht. cbn [truthy].
  unfold string_truthy in Htruthy. rewrite Htruthy. cbv beta iota delta [negb].
  destruct (dispatch w (Some (JStr t)) (JObj members) s) as [[r|] s'|s'|]; reflexivity.
Qed.

Lemma select_one_some (c : videos.column) (v : string) (t : list videos.row) :
  (exists r, In r t /\ videos.eq c v r = true) ->
  exists r, videos.select_one c v t = Some r.
Proof.
  intros [r [Hin Heq]]. unfold videos.select_one.
  destruct (find (videos.eq c v) t) as [r0|] eqn:E.
  - exists r0. reflexivity.
  - rewrite (find_none _ _ E r Hin) in Heq. discriminate.
Qed.

Lemma update_where_updated_rows (c : videos.column) (v : string) (p : videos.update_set)
  (P : videos.row -> videos.row -> Prop) (t : list videos.row) :
  (forall r, videos.eq c v r = true -> P r (videos.apply_set p r)) ->
  updated_rows c v P t (videos.update_where c v p t).
Proof.
  intros HP. unfold updated_rows, videos.update_where.
  induction t as [|r t IH]; cbn [map]; constructor; [|exact IH].
  destruct (videos.eq c v r) eqn:E; [apply HP; exact E|reflexivity].
Qed.

Lemma eq_upload_id (v : string) (r : videos.row) :
  videos.eq videos.MuxUploadId v r = true <-> videos.muxUploadId r = Some v.
Proof.
  unfold videos.eq. destruct (videos.muxUploadId r) as [x|].
  - rewrite String.eqb_eq. split; [intros ->; reflexivity|intros H; injection H as ->; reflexivity].
  - split; discriminate.
Qed.


Section Preserves.

Variable R : list videos.row -> list videos.row -> Prop.
Context {R_pre : PreOrder R}.
Variable w : World.

Lemma rel_refl (t : list videos.row) : R t t.
Proof. reflexivity. Qed.

Lemma rel_trans (a b c : list videos.row) : R a b -> R b c -> R a c.
Proof. intros. etransitivity; eassumption. Qed.

Lemma preserves_ret {A : Type} (a : A) : preserves R (ret a).
Proof. intros s. apply rel_refl. Qed.

Lemma preserves_throw {A : Type} : preserves R (@throw A).
Proof. intros s. apply rel_refl. Qed.

Lemma preserves_ill_typed {A : Type} : preserves R (@ill_typed A).
Proof. intros s. exact I. Qed.

Lemma preserves_bind {A B : Type} (m : M A) (k : A -> M B) :
  preserves R m -> (forall a, preserves R (k a)) -> preserves R (bind m k).
Proof.
  intros Hm Hk s. unfold bind. specialize (Hm s).
  destruct (m s) as [a s1|s1|]; [|exact Hm|exact I].
  specialize (Hk a s1). destruct (k a s1) as [b s2|s2|]; [| |exact I];
    eapply rel_trans; eassumption.
Qed.

Lemma preserves_bind_ret {A B : Type} (a : A) (k : A -> M B) :
  preserves R (k a) -> preserves R (bind (ret a) k).
Proof. intros H s. exact (H s). Qed.

Lemma preserves_bind_throw {A B : Type} (k : A -> M B) : preserves R (bind throw k).
Proof. intros s. apply rel_refl. Qed.

Lemma preserves_bind_ill_typed {A B : Type} (k : A -> M B) : preserves R (bind ill_typed k).
Proof. intros s. exact I. Qed.

Lemma preserves_bind_assoc {A B C : Type} (m : M A) (f : A -> M B) (k : B -> M C) :
  preserves R (bind m (fun a => bind (f a) k)) -> preserves R (bind (bind m f) k).
Proof.
  intros H s. specialize (H s). unfold bind in *.
  destruct (m s) as [a s1|s1|]; exact H.
Qed.

Lemma preserves_try_catch {A : Type} (m h : M A) :
  preserves R m -> preserves R h -> preserves R (try_catch m h).
Proof.
  intros Hm Hh s. unfold try_catch. specialize (Hm s).
  destruct (m s) as [a s1|s1|]; [exact Hm| |exact I].
  specialize (Hh s1). destruct (h s1) as [b s2|s2|]; [| |exact I];
    eapply rel_trans; eassumption.
Qed.

Lemma preserves_duration_millis (v : value) : preserves R (duration_millis v).
Proof.
  unfold duration_millis. destruct (truthy v); [|intros s; apply rel_refl].
  destruct v as [[| | | | |]|]; intros s0; try exact I; apply rel_refl.
Qed.

Lemma preserves_new_Date : preserves R (new_Date w).
Proof. intros s. apply rel_refl. Qed.

Lemma preserves_db_select (c : videos.column) (v : string) : preserves R (db_select w c v).
Proof. intros s. unfold db_select. destruct (db_throws w (clock s)); apply rel_refl. Qed.

Lemma preserves_upload (url : string) : preserves R (utapi_uploadFilesFromUrl w url).
Proof.
  intros s. unfold utapi_uploadFilesFromUrl.
  destruct (uploadFilesFromUrl w (clock s) url); apply rel_refl.
Qed.

Lemma preserves_deleteFiles (key : string) : preserves R (utapi_deleteFiles w key).
Proof.
  intros s. unfold utapi_deleteFiles.
  destruct (deleteFiles_throws w (clock s) key); apply rel_refl.
Qed.

Lemma preserves_mirror (url : string) : preserves R (mirror w url).
Proof.
  unfold mirror. apply preserves_try_catch; [|apply preserves_ret].
  apply preserves_bind; [apply preserves_upload|].
  intros [stored|]; [apply preserves_ret|apply preserves_throw].
Qed.

Lemma preserves_cleanup (key : option string) : preserves R (cleanup w key).
Proof.
  unfold cleanup. destruct key as [k|]; [|apply preserves_ret].
  destruct (string_truthy k); [|apply preserves_ret].
  apply preserves_try_catch; [apply preserves_deleteFiles|apply preserves_ret].
Qed.

Lemma preserves_db_update (c : videos.column) (v : string) (p : videos.update_set) :
  (forall t, R t (videos.update_where c v p t)) -> preserves R (db_update w c v p).
Proof.
  intros H s. unfold db_update.
  destruct (db_throws w (clock s) || refused p); [apply rel_refl|apply H].
Qed.

Lemma preserves_db_delete (c : videos.column) (v : string) :
  (forall t, R t (videos.delete_where c v t)) -> preserves R (db_delete w c v).
Proof.
  intros H s. unfold db_delete.
  destruct (db_throws w (clock s)); [apply rel_refl|apply H].
Qed.

End Preserves.

(** One step of a proof that a handler preserves a relation: the handler is
    read statement by statement, values read from the payload are kept. *)
Ltac preserve_step :=
  cbv beta iota zeta delta [get prop as_string as_optional_string];
  lazymatch goal with
  | |- PreOrder _ => exact _
  | |- preserves _ (try_catch _ _) => apply preserves_try_catch
  | |- preserves _ (ret _) => apply preserves_ret
  | |- preserves _ throw => apply preserves_throw
  | |- preserves _ ill_typed => apply preserves_ill_typed
  | |- preserves _ (bind (ret _) _) => apply preserves_bind_ret
  | |- preserves _ (bind throw _) => apply preserves_bind_throw
  | |- preserves _ (bind ill_typed _) => apply preserves_bind_ill_typed
  | |- preserves _ (bind (bind _ _) _) => apply preserves_bind_assoc
  | |- preserves _ (bind (match ?x with _ => _ end) _) => destruct x eqn:?
  | |- preserves _ (bind _ _) => apply preserves_bind; [exact _| |intro]
  | |- preserves _ (duration_millis _) => apply preserves_duration_millis
  | |- preserves _ (new_Date _) => apply preserves_new_Date
  | |- preserves _ (db_select _ _ _) => apply preserves_db_select
  | |- preserves _ (mirror _ _) => apply preserves_mirror
  | |- preserves _ (cleanup _ _) => apply preserves_cleanup
  | |- preserves _ (db_update _ _ _ _) => apply preserves_db_update; [exact _|]
  | |- preserves _ (db_delete _ _ _) => apply preserves_db_delete; [exact _|]
  | |- preserves _ (if ?b then _ else _) => destruct b eqn:?
  | |- preserves _ (match ?x with _ => _ end) => destruct x eqn:?
  end.

Ltac preserve := repeat preserve_step.

(* ===================================================================== *)
(** * The claims                                                          *)
(* ===================================================================== *)

(** C1 (as stated, refuted).  The body received has blanks between its
    tokens.  With the signature of the compact text, which does not verify
    over the bytes received, the request is processed and the row rewritten;
    with the signature of the bytes received, the request is rejected. *)
Lemma raw_body_not_what_is_verified :
  verify errored_text_spaced (sign test_secret errored_text) test_secret = false /\
  status_and_muxStatus
    (POST (test_world no_uploads) (signed_request errored_text errored_text_spaced)
          (initial [new_row "v1" "up_1"]))
  = Some (200, [Some "errored"]) /\
  verify errored_text_spaced (sign test_secret errored_text_spaced) test_secret = true /\
  POST (test_world no_uploads) (signed_request errored_text_spaced errored_text_spaced)
       (initial [new_row "v1" "up_1"])
  = Ok (mk_response 401 "Invalid signature") (initial [new_row "v1" "up_1"]).
Proof. vm_compute. repeat split; reflexivity. Qed.

(** C1 (amended).  The signature is verified over [JSON.stringify] of the
    parsed payload: a mismatch there is answered 401 with nothing done,
    a match lets [process] run, and two bodies that parse to the same payload
    are treated alike. *)
Theorem signature_verified_over_reserialized_payload
  (w : World) (request : Request) (s : State) (secret header : string) (payload : JValue) :
  SIGNING_SECRET w = Some secret -> string_truthy secret = true ->
  muxSignature request = Some header -> string_truthy header = true ->
  request_json w (raw_body request) = Some payload ->
  (verifySignature w (JSON_stringify w payload) header secret = false ->
   POST w request s = Ok (mk_response 401 "Invalid signature") s) /\
  (verifySignature w (JSON_stringify w payload) header secret = true ->
   POST w request s = try_catch (process w payload) (ret internal_server_error) s) /\
  (forall raw', request_json w raw' = Some payload ->
   POST w (mk_request (Some header) raw') s = POST w request s).
Proof.
  intros Hsecret Tsecret Hheader Theader Hjson.
  assert (run_POST : forall raw', request_json w raw' = Some payload ->
            POST w (mk_request (Some header) raw') s
            = if verifySignature w (JSON_stringify w payload) header secret
              then try_catch (process w payload) (ret internal_server_error) s
              else Ok (mk_response 401 "Invalid signature") s).
  { intros raw' H. unfold POST, try_catch, option_truthy.
    cbn [muxSignature raw_body]. rewrite Hsecret, Tsecret, Theader, H. cbn [negb].
    destruct (verifySignature w (JSON_stringify w payload) header secret); reflexivity. }
  destruct request as [h raw]. cbn [muxSignature raw_body] in *. subst h.
  repeat split.
  - intros V. rewrite (run_POST raw Hjson), V. reflexivity.
  - intros V. rewrite (run_POST raw Hjson), V. reflexivity.
  - intros raw' H. rewrite (run_POST raw' H), (run_POST raw Hjson). reflexivity.
Qed.

Lemma signature_verified_over_reserialized_payload_witness :
  POST (test_world no_uploads) (signed_request errored_text_spaced errored_text_spaced)
       (initial [new_row "v1" "up_1"])
  = Ok (mk_response 401 "Invalid signature") (initial [new_row "v1" "up_1"]) /\
  POST (test_world no_uploads) (signed_request errored_text errored_text_spaced)
       (initial [new_row "v1" "up_1"])
  = POST (test_world no_uploads) (signed_request errored_text errored_text)
         (initial [new_row "v1" "up_1"]).
Proof.
  split.
  - apply (proj1 (signature_verified_over_reserialized_payload
                    (test_world no_uploads)
                    (signed_request errored_text_spaced errored_text_spaced)
                    (initial [new_row "v1" "up_1"]) test_secret
                    (sign test_secret errored_text_spaced)
                    (JObj [("type", JStr "video.asset.errored");
                           ("data", JObj [("upload_id", JStr "up_1"); ("status", JStr "errored")])])
                    eq_refl eq_refl eq_refl eq_refl eq_refl)).
    reflexivity.
  - apply (proj2 (proj2 (signature_verified_over_reserialized_payload
                    (test_world no_uploads)
                    (signed_request errored_text errored_text)
                    (initial [new_row "v1" "up_1"]) test_secret
                    (sign test_secret errored_text)
                    (JObj [("type", JStr "video.asset.errored");
                           ("data", JObj [("upload_id", JStr "up_1"); ("status", JStr "errored")])])
                    eq_refl eq_refl eq_refl eq_refl eq_refl))).
    reflexivity.
Defined.

(** C2.  On a configured server, a request without the signature header, and
    a request whose payload fails the signature verification, are answered
    401 in the state they found: the table is what it was and no statement
    was sent to the store (no call of any kind was made). *)
Theorem unauthenticated_requests_change_nothing
  (w : World) (request : Request) (s : State) :
  option_truthy (SIGNING_SECRET w) = true ->
  (option_truthy (muxSignature request) = false ->
   POST w request s = Ok (mk_response 401 "No signature found") s) /\
  (forall header secret payload,
     muxSignature request = Some header -> string_truthy header = true ->
     SIGNING_SECRET w = Some secret ->
     request_json w (raw_body request) = Some payload ->
     verifySignature w (JSON_stringify w payload) header secret = false ->
     POST w request s = Ok (mk_response 401 "Invalid signature") s).
Proof.
  intros Hsecret. split.
  - intros Hheader. unfold POST, try_catch. rewrite Hsecret, Hheader. reflexivity.
  - intros header secret payload Hheader Theader Hs Hjson Hverify.
    unfold POST, try_catch. rewrite Hsecret. unfold option_truthy.
    rewrite Hheader, Theader, Hjson, Hs, Hverify. reflexivity.
Qed.

Lemma unauthenticated_requests_change_nothing_witness :
  POST (test_world fresh_keys) (mk_request None errored_text) (initial [new_row "v1" "up_1"])
  = Ok (mk_response 401 "No signature found") (initial [new_row "v1" "up_1"]) /\
  POST (test_world fresh_keys) (mk_request (Some "forged") errored_text)
       (initial [new_row "v1" "up_1"])
  = Ok (mk_response 401 "Invalid signature") (initial [new_row "v1" "up_1"]).
Proof.
  split.
  - apply (proj1 (unauthenticated_requests_change_nothing
                    (test_world fresh_keys) (mk_request None errored_text)
                    (initial [new_row "v1" "up_1"]) eq_refl)).
    reflexivity.
  - apply (proj2 (unauthenticated_requests_change_nothing
                    (test_world fresh_keys) (mk_request (Some "forged") errored_text)
                    (initial [new_row "v1" "up_1"]) eq_refl)
             "forged" test_secret
             (JObj [("type", JStr "video.asset.errored");
                    ("data", JObj [("upload_id", JStr "up_1"); ("status", JStr "errored")])]));
      reflexivity.
Defined.

(** C3.  The scenario: the event is [scenario_payload] (duration 12.5), its
    signature is valid, the store answers, and a row has [muxUploadId]
    "up_1".  The response is 200 and every such row has the four values;
    the other rows are untouched. *)
Theorem ready_scenario (w : World) (request : Request) (s : State) :
  authenticated w request = Some scenario_payload ->
  (forall tick, db_throws w tick = false) ->
  (exists r, In r (table s) /\ videos.muxUploadId r = Some "up_1") ->
  exists s',
    POST w request s = Ok ok_200 s' /\
    updated_rows videos.MuxUploadId "up_1"
      (fun _ r' => videos.muxStatus r' = Some "ready" /\
                   videos.muxPlaybackId r' = Some "pb_1" /\
                   videos.muxAssetId r' = Some "asset_1" /\
                   videos.duration r' = 12500)
      (table s) (table s').
Proof.
  intros Hauth Hdb [r [Hin Hr]].
  rewrite (POST_authenticated _ _ _ _ Hauth). unfold try_catch.
  rewrite (process_dispatch w scenario_payload "video.asset.ready" s eq_refl eq_refl).
  change (dispatch w (Some (JStr "video.asset.ready")) scenario_payload)
    with (asset_ready w scenario_payload).
  rewrite (asset_ready_outcome w scenario_payload
             (mk_ready "up_1" "pb_1" (Some "asset_1") (Some "ready") (Some (number_of 25 (-1))))
             s eq_refl).
  unfold ready_outcome. cbn [ready_upload_id ready_playback_id].
  rewrite !Hdb.
  destruct (select_one_some videos.MuxUploadId "up_1" (table s)) as [r0 ->].
  { exists r. split; [exact Hin|]. apply eq_upload_id. exact Hr. }
  cbn [orb]. unfold refused, ready_set. cbn [videos.set_duration ready_duration].
  assert (E : millis_of (Some (number_of 25 (-1))) = Some 12500) by (vm_compute; reflexivity).
  rewrite E. eexists. split; [reflexivity|].
  cbn [table with_table called].
  apply update_where_updated_rows. intros r1 _. cbn. repeat split; reflexivity.
Qed.

Lemma ready_scenario_witness :
  exists s',
    POST (test_world fresh_keys) (signed_request scenario_text scenario_text)
         (initial [new_row "v0" "up_0"; new_row "v1" "up_1"])
    = Ok ok_200 s' /\
    updated_rows videos.MuxUploadId "up_1"
      (fun _ r' => videos.muxStatus r' = Some "ready" /\
                   videos.muxPlaybackId r' = Some "pb_1" /\
                   videos.muxAssetId r' = Some "asset_1" /\
                   videos.duration r' = 12500)
      [new_row "v0" "up_0"; new_row "v1" "up_1"] (table s').
Proof.
  apply (ready_scenario (test_world fresh_keys) (signed_request scenario_text scenario_text)
           (initial [new_row "v0" "up_0"; new_row "v1" "up_1"])).
  - vm_compute. reflexivity.
  - reflexivity.
  - exists (new_row "v1" "up_1"). split; [right; left; reflexivity|reflexivity].
Defined.





Lemma POST_ready (w : World) (request : Request) (s : State) (payload : JValue)
  (ev : ReadyEvent) :
  authenticated w request = Some payload ->
  prop payload "type" = Some (JStr "video.asset.ready") ->
  view_ready payload = Some ev ->
  POST w request s =
  match ready_outcome w ev s with
  | Ok (Return r) s' => Ok r s'
  | Ok Break s' => Ok ok_200 s'
  | Thrown s' => Ok internal_server_error s'
  | IllTyped => IllTyped
  end.
Proof.
  intros Hauth Htype Hview.
  rewrite (POST_authenticated _ _ _ _ Hauth). unfold try_catch.
  rewrite (process_dispatch w payload "video.asset.ready" s Htype eq_refl).
  change (dispatch w (Some (JStr "video.asset.ready")) payload) with (asset_ready w payload).
  rewrite (asset_ready_outcome w payload ev s Hview).
  destruct (ready_outcome w ev s) as [[r|] s'|s'|]; reflexivity.
Qed.

Lemma POST_ready_updates (w : World) (request : Request) (s : State) (payload : JValue)
  (ev : ReadyEvent) (z : Z) :
  authenticated w request = Some payload ->
  prop payload "type" = Some (JStr "video.asset.ready") ->
  view_ready payload = Some ev ->
  (forall tick, db_throws w tick = false) ->
  (exists r, In r (table s) /\ videos.muxUploadId r = Some (ready_upload_id ev)) ->
  millis_of (ready_duration ev) = Some z ->
  exists s',
    POST w request s = Ok ok_200 s' /\
    table s' = videos.update_where videos.MuxUploadId (ready_upload_id ev)
                 (ready_set_at w ev s) (table s).
Proof.
  intros Hauth Htype Hview Hdb [r [Hin Hr]] Hz.
  rewrite (POST_ready w request s payload ev Hauth Htype Hview).
  unfold ready_outcome. rewrite !Hdb.
  destruct (select_one_some videos.MuxUploadId (ready_upload_id ev) (table s)) as [r0 ->].
  { exists r. split; [exact Hin|]. apply eq_upload_id. exact Hr. }
  assert (Hset : forall th pv date, refused (ready_set ev th pv date) = false).
  { intros. unfold refused, ready_set. cbn [videos.set_duration]. rewrite Hz. reflexivity. }
  rewrite Hset. cbn [orb]. eexists. split; reflexivity.
Qed.




(** C5 (as stated, refuted).  The upload service stores each copy under a
    fresh key.  After one delivery of the scenario's event the thumbnail key
    is "key_1"; after a second delivery it is "key_5". *)
Lemma replay_rewrites_the_locations :
  status_and_thumbnailKey
    (POST (test_world fresh_keys) (signed_request scenario_text scenario_text)
          (initial [new_row "v1" "up_1"]))
  = Some (200, [Some "key_1"]) /\
  match POST (test_world fresh_keys) (signed_request scenario_text scenario_text)
             (initial [new_row "v1" "up_1"]) with
  | Ok _ s1 =>
      status_and_thumbnailKey
        (POST (test_world fresh_keys) (signed_request scenario_text scenario_text) s1)
  | _ => None
  end = Some (200, [Some "key_5"]).
Proof. vm_compute. split; reflexivity. Qed.

Lemma eq_upload_id_apply_set (v : string) (p : videos.update_set) (r : videos.row) :
  videos.eq videos.MuxUploadId v (videos.apply_set p r) = videos.eq videos.MuxUploadId v r.
Proof. reflexivity. Qed.

Lemma select_one_update_where (v : string) (p : videos.update_set) (t : list videos.row) :
  videos.select_one videos.MuxUploadId v (videos.update_where videos.MuxUploadId v p t)
  = option_map (videos.apply_set p) (videos.select_one videos.MuxUploadId v t).
Proof.
  unfold videos.select_one, videos.update_where.
  induction t as [|r t IH]; [reflexivity|]. cbn [map find].
  destruct (videos.eq videos.MuxUploadId v r) eqn:E.
  - rewrite eq_upload_id_apply_set, E. reflexivity.
  - rewrite E. exact IH.
Qed.

Lemma map_update_twice (f : videos.row -> videos.row) (v : string)
  (p1 p2 : videos.update_set) (t : list videos.row) :
  (forall r, f (videos.apply_set p2 (videos.apply_set p1 r)) = f (videos.apply_set p1 r)) ->
  map f (videos.update_where videos.MuxUploadId v p2
           (videos.update_where videos.MuxUploadId v p1 t))
  = map f (videos.update_where videos.MuxUploadId v p1 t).
Proof.
  intros H. unfold videos.update_where.
  induction t as [|r t IH]; [reflexivity|]. cbn [map].
  destruct (videos.eq videos.MuxUploadId v r) eqn:E.
  - rewrite eq_upload_id_apply_set, E, H, IH. reflexivity.
  - rewrite E, IH. reflexivity.
Qed.

Lemma assign_twice {A : Type} (x : option A) (old : option A) :
  videos.assign x (videos.assign x old) = videos.assign x old.
Proof. destruct x; reflexivity. Qed.

Lemma ready_set_twice (ev : ReadyEvent) (th1 pv1 th2 pv2 : option (string * string))
  (d1 d2 : Z) (r : videos.row) :
  forget_updatedAt_and_locations
    (videos.apply_set (ready_set ev th2 pv2 d2) (videos.apply_set (ready_set ev th1 pv1 d1) r))
  = forget_updatedAt_and_locations (videos.apply_set (ready_set ev th1 pv1 d1) r).
Proof.
  unfold forget_updatedAt_and_locations, videos.apply_set, ready_set.
  cbn -[videos.assign]. rewrite !assign_twice.
  destruct (millis_of (ready_duration ev)) as [z|]; reflexivity.
Qed.

Lemma ready_set_again (ev : ReadyEvent) (th pv : option (string * string))
  (d1 d2 : Z) (r : videos.row) :
  forget_updatedAt
    (videos.apply_set (ready_set ev th pv d2) (videos.apply_set (ready_set ev th pv d1) r))
  = forget_updatedAt (videos.apply_set (ready_set ev th pv d1) r).
Proof.
  unfold forget_updatedAt, videos.apply_set, ready_set.
  cbn -[videos.assign]. rewrite !assign_twice.
  destruct (millis_of (ready_duration ev)) as [z|]; reflexivity.
Qed.

(** C5 (amended).  On a store that answers, two deliveries in sequence of a
    well-formed ready event get the same response, and leave every row as
    one delivery leaves it in all columns but [updatedAt] and the thumbnail
    and preview (key, url) pairs; when the upload service answers by the URL
    alone, the pairs agree too. *)
Theorem ready_replay (w : World) (request : Request) (s : State)
  (payload : JValue) (ev : ReadyEvent) :
  authenticated w request = Some payload ->
  prop payload "type" = Some (JStr "video.asset.ready") ->
  view_ready payload = Some ev ->
  (forall tick, db_throws w tick = false) ->
  exists r s1 s2,
    POST w request s = Ok r s1 /\
    POST w request s1 = Ok r s2 /\
    map forget_updatedAt_and_locations (table s2)
    = map forget_updatedAt_and_locations (table s1) /\
    ((forall tick tick' url, uploadFilesFromUrl w tick url = uploadFilesFromUrl w tick' url) ->
     map forget_updatedAt (table s2) = map forget_updatedAt (table s1)).
Proof.
  intros Hauth Htype Hview Hdb.
  assert (HP := fun s => POST_ready w request s payload ev Hauth Htype Hview).
  rewrite (HP s). unfold ready_outcome at 1. rewrite !Hdb. cbn [orb].
  destruct (videos.select_one videos.MuxUploadId (ready_upload_id ev) (table s))
    as [r0|] eqn:Hsel.
  - destruct (refused _) eqn:Href.
    + (* the set is refused on both deliveries *)
      eexists. eexists. eexists. split; [reflexivity|].
      rewrite HP. unfold ready_outcome. rewrite !Hdb. cbn [orb table called].
      rewrite Hsel.
      match goal with |- context [refused ?p] => assert (E : refused p = true) end.
      { unfold refused, ready_set in *. cbn [videos.set_duration] in *. exact Href. }
      rewrite E. repeat split; reflexivity.
    + eexists. eexists. eexists. split; [reflexivity|].
      rewrite HP. unfold ready_outcome. rewrite !Hdb. cbn [orb table called with_table].
      rewrite select_one_update_where, Hsel. cbn [option_map].
      match goal with |- context [refused ?p] => assert (E : refused p = false) end.
      { unfold refused, ready_set in *. cbn [videos.set_duration] in *. exact Href. }
      rewrite E. split; [reflexivity|]. cbn [table with_table]. split.
      * apply map_update_twice. intros r. apply ready_set_twice.
      * intros Hsame. apply map_update_twice. intros r. cbn [clock called].
        rewrite (Hsame (S (S (S (S (S (clock s)))))) (S (clock s))).
        rewrite (Hsame (S (S (S (S (S (S (clock s))))))) (S (S (clock s)))).
        apply ready_set_again.
  - eexists. eexists. eexists. split; [reflexivity|].
    rewrite HP. unfold ready_outcome. rewrite !Hdb. cbn [table called]. rewrite Hsel.
    repeat split; reflexivity.
Qed.

Lemma ready_replay_witness :
  exists r s1 s2,
    POST (test_world no_uploads) (signed_request scenario_text scenario_text)
         (initial [new_row "v1" "up_1"]) = Ok r s1 /\
    POST (test_world no_uploads) (signed_request scenario_text scenario_text) s1 = Ok r s2 /\
    map forget_updatedAt_and_locations (table s2)
    = map forget_updatedAt_and_locations (table s1) /\
    map forget_updatedAt (table s2) = map forget_updatedAt (table s1).
Proof.
  destruct (ready_replay (test_world no_uploads) (signed_request scenario_text scenario_text)
              (initial [new_row "v1" "up_1"]) scenario_payload
              (mk_ready "up_1" "pb_1" (Some "asset_1") (Some "ready") (Some (number_of 25 (-1)))))
    as [r [s1 [s2 [H1 [H2 [H3 H4]]]]]].
  - vm_compute. reflexivity.
  - reflexivity.
  - reflexivity.
  - reflexivity.
  - exists r, s1, s2. repeat split; try assumption. apply H4. reflexivity.
Defined.

(** The deleted handler on an event that carries an upload id ends at its
    [break], whatever the store and the file service do. *)
Lemma asset_deleted_breaks (w : World) (payload data : JValue) (uid : string) (s : State) :
  prop payload "data" = Some data ->
  prop data "upload_id" = Some (JStr uid) ->
  string_truthy uid = true ->
  exists s',
    asset_deleted w payload s = Ok Break s' /\
    (db_throws w (clock s) = false ->
     videos.select_one videos.MuxUploadId uid (table s) = None ->
     calls s' = (calls s ++ [CallSelect videos.MuxUploadId uid;
                             CallDelete videos.MuxUploadId uid])%list).
Proof.
  intros Hdata Huid Tuid. unfold asset_deleted. rewrite Hdata.
  destruct data as [| | | | |members]; try discriminate.
  run. cbn [prop] in Huid. rewrite Huid. cbn [truthy].
  unfold string_truthy in Tuid. rewrite Tuid. cbv beta iota delta [negb].
  destruct (db_throws w (clock s)) eqn:D1.
  { eexists. split; [reflexivity|]. discriminate. }
  destruct (videos.select_one videos.MuxUploadId uid (table s)) as [video|] eqn:Hsel.
  - unfold cleanup. run.
    destruct (videos.thumbnailKey video) as [k1|];
      [destruct (string_truthy k1); [destruct (deleteFiles_throws w _ k1)|]|];
      cbv beta iota; cbn [table clock calls];
      (destruct (videos.previewKey video) as [k2|];
         [destruct (string_truthy k2); [destruct (deleteFiles_throws w _ k2)|]|]);
      cbv beta iota; cbn [table clock calls];
      match goal with |- context [db_throws w ?n] => destruct (db_throws w n) end;
      (eexists; split; [reflexivity|discriminate]).
  - cbv beta iota. cbn [table clock calls].
    destruct (db_throws w (S (clock s))); eexists; (split; [reflexivity|]); intros _ _;
      cbn [calls]; rewrite <- app_assoc; reflexivity.
Qed.

(** C6.  An authenticated [video.asset.deleted] event that carries an upload
    id is answered 200 in every state and in every world: whether or not a
    row matches, whether the store or the file service throw, and again when
    the same event is delivered once more.  When the lookup finds no row, a
    delete keyed by the upload id is sent all the same. *)
Theorem asset_deleted_always_acknowledged (w : World) (request : Request) (s : State)
  (payload data : JValue) (uid : string) :
  authenticated w request = Some payload ->
  prop payload "type" = Some (JStr "video.asset.deleted") ->
  prop payload "data" = Some data ->
  prop data "upload_id" = Some (JStr uid) ->
  string_truthy uid = true ->
  exists s',
    POST w request s = Ok ok_200 s' /\
    (db_throws w (clock s) = false ->
     videos.select_one videos.MuxUploadId uid (table s) = None ->
     calls s' = (calls s ++ [CallSelect videos.MuxUploadId uid;
                             CallDelete videos.MuxUploadId uid])%list) /\
    exists s'', POST w request s' = Ok ok_200 s''.
Proof.
  intros Hauth Htype Hdata Huid Tuid.
  assert (HP : forall s0, exists s',
             POST w request s0 = Ok ok_200 s' /\
             (db_throws w (clock s0) = false ->
              videos.select_one videos.MuxUploadId uid (table s0) = None ->
              calls s' = (calls s0 ++ [CallSelect videos.MuxUploadId uid;
                                       CallDelete videos.MuxUploadId uid])%list)).
  { intros s0. rewrite (POST_authenticated _ _ _ _ Hauth). unfold try_catch.
    rewrite (process_dispatch w payload "video.asset.deleted" s0 Htype eq_refl).
    change (dispatch w (Some (JStr "video.asset.deleted")) payload)
      with (asset_deleted w payload).
    destruct (asset_deleted_breaks w payload data uid s0 Hdata Huid Tuid) as [s' [E C]].
    rewrite E. exists s'. split; [reflexivity|exact C]. }
  destruct (HP s) as [s' [H1 H2]]. exists s'. split; [exact H1|]. split; [exact H2|].
  destruct (HP s') as [s'' [H3 _]]. exists s''. exact H3.
Qed.

Lemma asset_deleted_always_acknowledged_witness :
  exists s',
    POST (test_world no_uploads) (signed_request deleted_text deleted_text)
         (initial [new_row "v1" "up_1"]) = Ok ok_200 s' /\
    calls s' = [CallSelect videos.MuxUploadId "up_missing";
                CallDelete videos.MuxUploadId "up_missing"] /\
    exists s'', POST (test_world no_uploads) (signed_request deleted_text deleted_text) s'
                = Ok ok_200 s''.
Proof.
  destruct (asset_deleted_always_acknowledged (test_world no_uploads)
              (signed_request deleted_text deleted_text) (initial [new_row "v1" "up_1"])
              (JObj [("type", JStr "video.asset.deleted");
                     ("data", JObj [("upload_id", JStr "up_missing")])])
              (JObj [("upload_id", JStr "up_missing")]) "up_missing")
    as [s' [H1 [H2 H3]]].
  - vm_compute. reflexivity.
  - reflexivity.
  - reflexivity.
  - reflexivity.
  - reflexivity.
  - exists s'. split; [exact H1|]. split; [|exact H3].
    exact (H2 eq_refl eq_refl).
Defined.

(** C7.  A well-formed ready event (asset id [aid], status [st], duration in
    milliseconds [z]) on an answering store with a matching row is answered
    200.  When the thumbnail upload stored a copy (key, url) and the preview
    upload failed (it threw, or answered without data), the matching rows get
    the status columns and the thumbnail pair, and keep the preview pair they
    had; and the other way round. *)
Theorem one_mirror_fails (w : World) (request : Request) (s : State)
  (payload : JValue) (ev : ReadyEvent) (aid st : string) (z : Z) :
  authenticated w request = Some payload ->
  prop payload "type" = Some (JStr "video.asset.ready") ->
  view_ready payload = Some ev ->
  ready_asset_id ev = Some aid ->
  ready_status ev = Some st ->
  millis_of (ready_duration ev) = Some z ->
  (forall tick, db_throws w tick = false) ->
  (exists r, In r (table s) /\ videos.muxUploadId r = Some (ready_upload_id ev)) ->
  exists s',
    POST w request s = Ok ok_200 s' /\
    (forall key url,
       uploadFilesFromUrl w (S (clock s)) (thumbnail_url (ready_playback_id ev))
       = UploadData key url ->
       string_truthy key = true -> string_truthy url = true ->
       upload_answer (uploadFilesFromUrl w (S (S (clock s)))
                        (preview_url (ready_playback_id ev))) = None ->
       updated_rows videos.MuxUploadId (ready_upload_id ev)
         (fun r r' => primary_fields ev aid st z r' /\
                      videos.thumbnailKey r' = Some key /\
                      videos.thumbnailUrl r' = Some url /\
                      videos.previewKey r' = videos.previewKey r /\
                      videos.previewUrl r' = videos.previewUrl r)
         (table s) (table s')) /\
    (forall key url,
       upload_answer (uploadFilesFromUrl w (S (clock s))
                        (thumbnail_url (ready_playback_id ev))) = None ->
       uploadFilesFromUrl w (S (S (clock s))) (preview_url (ready_playback_id ev))
       = UploadData key url ->
       string_truthy key = true -> string_truthy url = true ->
       updated_rows videos.MuxUploadId (ready_upload_id ev)
         (fun r r' => primary_fields ev aid st z r' /\
                      videos.previewKey r' = Some key /\
                      videos.previewUrl r' = Some url /\
                      videos.thumbnailKey r' = videos.thumbnailKey r /\
                      videos.thumbnailUrl r' = videos.thumbnailUrl r)
         (table s) (table s')).
Proof.
  intros Hauth Htype Hview Haid Hst Hz Hdb Hrow.
  destruct (POST_ready_updates w request s payload ev z Hauth Htype Hview Hdb Hrow Hz)
    as [s' [HP Ht]].
  exists s'. split; [exact HP|]. rewrite Ht. unfold ready_set_at.
  split; intros key url.
  - intros Hth Tkey Turl Hpv. rewrite Hth, Hpv.
    apply update_where_updated_rows. intros r _.
    unfold primary_fields, ready_set, videos.apply_set, uploaded_pair, upload_answer.
    rewrite Haid, Hst, Hz, Tkey, Turl. cbn. repeat split; reflexivity.
  - intros Hth Hpv Tkey Turl. rewrite Hth, Hpv.
    apply update_where_updated_rows. intros r _.
    unfold primary_fields, ready_set, videos.apply_set, uploaded_pair, upload_answer.
    rewrite Haid, Hst, Hz, Tkey, Turl. cbn. repeat split; reflexivity.
Qed.

Lemma one_mirror_fails_witness :
  exists s',
    POST (test_world thumbnail_only) (signed_request scenario_text scenario_text)
         (initial [new_row "v1" "up_1"]) = Ok ok_200 s' /\
    updated_rows videos.MuxUploadId "up_1"
      (fun r r' => primary_fields
                     (mk_ready "up_1" "pb_1" (Some "asset_1") (Some "ready")
                               (Some (number_of 25 (-1))))
                     "asset_1" "ready" 12500 r' /\
                   videos.thumbnailKey r' = Some "thumb_key" /\
                   videos.thumbnailUrl r' = Some "https://utfs.io/f/thumb_key" /\
                   videos.previewKey r' = videos.previewKey r /\
                   videos.previewUrl r' = videos.previewUrl r)
      [new_row "v1" "up_1"] (table s').
Proof.
  destruct (one_mirror_fails (test_world thumbnail_only)
              (signed_request scenario_text scenario_text) (initial [new_row "v1" "up_1"])
              scenario_payload
              (mk_ready "up_1" "pb_1" (Some "asset_1") (Some "ready") (Some (number_of 25 (-1))))
              "asset_1" "ready" 12500) as [s' [H1 [H2 _]]].
  - vm_compute. reflexivity.
  - reflexivity.
  - reflexivity.
  - reflexivity.
  - reflexivity.
  - vm_compute. reflexivity.
  - reflexivity.
  - exists (new_row "v1" "up_1"). split; [left; reflexivity|reflexivity].
  - exists s'. split; [exact H1|].
    apply (H2 "thumb_key" "https://utfs.io/f/thumb_key"); reflexivity.
Defined.

(** C8 (as stated, refuted).  The created event lacks both fields the table
    of required fields names, and it is not answered 400: the row is looked
    up and an update is sent, and the answer is 200. *)
Lemma missing_required_field_is_not_checked :
  status_and_calls
    (POST (test_world no_uploads)
          (signed_request created_without_fields_text created_without_fields_text)
          (initial [new_row "v1" "up_1"]))
  = Some (200,
          [CallSelect videos.MuxUploadId "up_1";
           CallUpdate videos.MuxUploadId "up_1"
             (videos.mk_set None None None None None None None None None None (Some 1001))]).
Proof. vm_compute. reflexivity. Qed.

(** C8 (amended).  For each of the five kinds, an event whose [data] is
    there and whose correlation key ([asset_id] for a track, [upload_id]
    otherwise) is absent or falsy is answered 400 in the state it found, so
    before any lookup; so is a ready event without a first playback id.  (No
    other field is checked.) *)
Theorem missing_key_rejected_before_lookup (w : World) (request : Request) (s : State)
  (payload data : JValue) (kind : string) :
  authenticated w request = Some payload ->
  prop payload "type" = Some (JStr kind) ->
  In kind handled_kinds ->
  prop payload "data" = Some data ->
  data <> JNull ->
  truthy (prop data (correlation_key kind)) = false \/
  (kind = "video.asset.ready" /\
   truthy (opt_prop (opt_index0 (prop data "playback_ids")) "id") = false) ->
  exists body, POST w request s = Ok (mk_response 400 body) s.
Proof.
  intros Hauth Htype Hkind Hdata Hnull Hmissing.
  rewrite (POST_authenticated _ _ _ _ Hauth). unfold try_catch.
  assert (Hget : forall k, get (Some data) k = ret (prop data k)).
  { intros k. destruct data; try reflexivity. contradiction. }
  cbn [handled_kinds In] in Hkind.
  destruct Hkind as [<-|[<-|[<-|[<-|[<-|[]]]]]];
    rewrite (process_dispatch w payload _ s Htype eq_refl);
    cbn [correlation_key String.eqb Ascii.eqb Bool.eqb] in Hmissing;
    match goal with
    | |- context [dispatch w (Some (JStr "video.asset.created")) payload] =>
        change (dispatch w (Some (JStr "video.asset.created")) payload)
          with (asset_created w payload); unfold asset_created
    | |- context [dispatch w (Some (JStr "video.asset.ready")) payload] =>
        change (dispatch w (Some (JStr "video.asset.ready")) payload)
          with (asset_ready w payload); unfold asset_ready
    | |- context [dispatch w (Some (JStr "video.asset.errored")) payload] =>
        change (dispatch w (Some (JStr "video.asset.errored")) payload)
          with (asset_errored w payload); unfold asset_errored
    | |- context [dispatch w (Some (JStr "video.asset.deleted")) payload] =>
        change (dispatch w (Some (JStr "video.asset.deleted")) payload)
          with (asset_deleted w payload); unfold asset_deleted
    | |- context [dispatch w (Some (JStr "video.asset.track.ready")) payload] =>
        change (dispatch w (Some (JStr "video.asset.track.ready")) payload)
          with (asset_track_ready w payload); unfold asset_track_ready
    end;
    rewrite Hdata; cbv zeta; unfold try_catch, bind; rewrite !Hget; unfold ret;
    destruct Hmissing as [Hkey|[Hk Hpb]]; try discriminate Hk;
    try (rewrite Hkey; cbn [negb]; eexists; reflexivity).
  destruct (truthy (prop data "upload_id")); cbn [negb]; [|eexists; reflexivity].
  rewrite Hpb. cbn [negb]. eexists. reflexivity.
Qed.

Lemma missing_key_rejected_before_lookup_witness :
  exists body,
    POST (test_world no_uploads)
         (signed_request ready_without_playback_text ready_without_playback_text)
         (initial [new_row "v1" "up_1"])
    = Ok (mk_response 400 body) (initial [new_row "v1" "up_1"]).
Proof.
  apply (missing_key_rejected_before_lookup (test_world no_uploads)
           (signed_request ready_without_playback_text ready_without_playback_text)
           (initial [new_row "v1" "up_1"])
           (JObj [("type", JStr "video.asset.ready");
                  ("data", JObj [("upload_id", JStr "up_1"); ("playback_ids", JArr [])])])
           (JObj [("upload_id", JStr "up_1"); ("playback_ids", JArr [])])
           "video.asset.ready").
  - vm_compute. reflexivity.
  - reflexivity.
  - right. left. reflexivity.
  - reflexivity.
  - discriminate.
  - right. split; reflexivity.
Defined.

#[export] Instance stems_PreOrder (allowed : option string) : PreOrder (stems allowed).
Proof.
  split.
  - intros t r' Hin. exists r'. auto.
  - intros t1 t2 t3 H12 H23 r3 Hin3.
    destruct (H23 r3 Hin3) as [r2 [Hin2 [Hid2 Hasset2]]].
    destruct (H12 r2 Hin2) as [r1 [Hin1 [Hid1 Hasset1]]].
    exists r1. split; [exact Hin1|]. split; [congruence|].
    destruct Hasset2 as [E2|A2]; [|right; exact A2].
    destruct Hasset1 as [E1|A1]; [left; congruence|].
    right. destruct A1 as [a [Ha E1]]. exists a. split; [exact Ha|congruence].
Qed.



(** A computation that preserves a relation preserves it across [POST]. *)
Lemma process_preserves (R : list videos.row -> list videos.row -> Prop) {R_pre : PreOrder R}
  (w : World) (payload : JValue) :
  preserves R (dispatch w (prop payload "type") payload) ->
  preserves R (process w payload).
Proof.
  intros H. unfold process.
  destruct payload as [| | | | |members]; preserve; try exact H.
  all: match goal with |- preserves _ (match ?x with _ => _ end) => destruct x end; preserve.
Qed.

Lemma POST_preserves (R : list videos.row -> list videos.row -> Prop) {R_pre : PreOrder R}
  (w : World) (request : Request) :
  (forall payload, request_json w (raw_body request) = Some payload ->
                   preserves R (process w payload)) ->
  preserves R (POST w request).
Proof.
  intros H. unfold POST. preserve.
  apply H. reflexivity.
Qed.

Lemma preserves_Ok {A : Type} (R : list videos.row -> list videos.row -> Prop)
  (m : M A) (s s' : State) (a : A) :
  preserves R m -> m s = Ok a s' -> R (table s) (table s').
Proof. intros H E. specialize (H s). rewrite E in H. exact H. Qed.


Section AssetId.

Variable w : World.







End AssetId.




#[export] Instance same_under_PreOrder (f : videos.row -> videos.row) : PreOrder (same_under f).
Proof.
  split.
  - intros t. reflexivity.
  - intros t1 t2 t3 H12 H23. unfold same_under in *. congruence.
Qed.

Lemma same_under_update_where (f : videos.row -> videos.row) (c : videos.column) (v : string)
  (p : videos.update_set) (t : list videos.row) :
  (forall r, f (videos.apply_set p r) = f r) ->
  same_under f t (videos.update_where c v p t).
Proof.
  intros H. unfold same_under, videos.update_where. rewrite map_map.
  apply map_ext. intros r. destruct (videos.eq c v r); [apply H|reflexivity].
Qed.

Ltac frame_obligations :=
  try (intro; apply same_under_update_where; intro; reflexivity).

Section Frames.

Variable w : World.

Lemma asset_created_frame (payload : JValue) :
  preserves (same_under forget_created) (asset_created w payload).
Proof. unfold asset_created. preserve. all: frame_obligations. Qed.

Lemma asset_errored_frame (payload : JValue) :
  preserves (same_under forget_errored) (asset_errored w payload).
Proof. unfold asset_errored. preserve. all: frame_obligations. Qed.

Lemma asset_track_ready_frame (payload : JValue) :
  preserves (same_under forget_track) (asset_track_ready w payload).
Proof. unfold asset_track_ready. preserve. all: frame_obligations. Qed.

Lemma asset_ready_frame (payload : JValue) :
  preserves (same_under forget_ready) (asset_ready w payload).
Proof. unfold asset_ready. preserve. all: frame_obligations. Qed.

Lemma dispatch_frame (f : videos.row -> videos.row) (payload : JValue)
  (kind : string) (handler : JValue -> M Flow) :
  dispatch w (Some (JStr kind)) payload = handler payload ->
  preserves (same_under f) (handler payload) ->
  prop payload "type" = Some (JStr kind) ->
  forall request s s' resp,
    request_json w (raw_body request) = Some payload ->
    POST w request s = Ok resp s' ->
    map f (table s') = map f (table s).
Proof.
  intros Hd Hh Htype request s s' resp Hjson HP.
  assert (H : preserves (same_under f) (POST w request)).
  { apply POST_preserves; [exact _|]. intros p Hp. rewrite Hjson in Hp. injection Hp as <-.
    apply process_preserves; [exact _|]. rewrite Htype, Hd. exact Hh. }
  exact (preserves_Ok _ _ _ _ _ H HP).
Qed.

End Frames.

(** C10.  Whatever the response, a request whose event is of one of the four
    kinds that update leaves every row as it was in all the columns its
    handler does not name: [video.asset.created] touches at most
    [muxAssetId], [muxStatus] and [updatedAt]; [video.asset.errored] at most
    [muxStatus] and [updatedAt]; [video.asset.track.ready] at most
    [muxTrackId], [muxTrackStatus] and [updatedAt]; [video.asset.ready] at
    most the status columns, the two (key, url) pairs and [updatedAt].  No
    row is added or removed. *)
Theorem handlers_write_only_their_columns (w : World) (request : Request)
  (s s' : State) (resp : Response) (payload : JValue) (kind : string) :
  POST w request s = Ok resp s' ->
  request_json w (raw_body request) = Some payload ->
  prop payload "type" = Some (JStr kind) ->
  (kind = "video.asset.created" ->
   map forget_created (table s') = map forget_created (table s)) /\
  (kind = "video.asset.errored" ->
   map forget_errored (table s') = map forget_errored (table s)) /\
  (kind = "video.asset.track.ready" ->
   map forget_track (table s') = map forget_track (table s)) /\
  (kind = "video.asset.ready" ->
   map forget_ready (table s') = map forget_ready (table s)).
Proof.
  intros HP Hjson Htype. repeat split; intros ->.
  - exact (dispatch_frame w forget_created payload "video.asset.created" (asset_created w) eq_refl
             (asset_created_frame w payload) Htype request s s' resp Hjson HP).
  - exact (dispatch_frame w forget_errored payload "video.asset.errored" (asset_errored w) eq_refl
             (asset_errored_frame w payload) Htype request s s' resp Hjson HP).
  - exact (dispatch_frame w forget_track payload "video.asset.track.ready" (asset_track_ready w) eq_refl
             (asset_track_ready_frame w payload) Htype request s s' resp Hjson HP).
  - exact (dispatch_frame w forget_ready payload "video.asset.ready" (asset_ready w) eq_refl
             (asset_ready_frame w payload) Htype request s s' resp Hjson HP).
Qed.

Lemma handlers_write_only_their_columns_witness :
  map forget_errored (table errored_state) = map forget_errored [row_with_asset].
Proof.
  apply (handlers_write_only_their_columns (test_world no_uploads)
           (signed_request errored_text errored_text) (initial [row_with_asset])
           errored_state ok_200
           (JObj [("type", JStr "video.asset.errored");
                  ("data", JObj [("upload_id", JStr "up_1"); ("status", JStr "errored")])])
           "video.asset.errored").
  - vm_compute. reflexivity.
  - reflexivity.
  - reflexivity.
  - reflexivity.
Defined.

(* ===================================================================== *)
(** * Further properties of the handler                                   *)
(* ===================================================================== *)

(** ** Before the [switch] *)

(** X1.  A request that does not pass the checks made before the [switch]
    is answered in the state it found: nothing is looked up, written or
    uploaded.  The answer is 500, 401 or 400; it is 500 exactly when the
    signing secret is not configured, and 400 exactly when the secret is
    configured, the signature header is there and the body does not parse,
    whatever the header holds. *)
Theorem unauthenticated_request_touches_nothing (w : World) (request : Request) (s : State) :
  authenticated w request = None ->
  exists r,
    POST w request s = Ok r s /\
    In (status r) [500; 401; 400] /\
    (status r = 500 <-> option_truthy (SIGNING_SECRET w) = false) /\
    (status r = 400 <->
     option_truthy (SIGNING_SECRET w) = true /\
     option_truthy (muxSignature request) = true /\
     request_json w (raw_body request) = None).
Proof.
  unfold authenticated, POST, try_catch, option_truthy.
  destruct (SIGNING_SECRET w) as [secret|];
    [destruct (string_truthy secret)|]; cbn [negb andb].
  2,3: intros _; eexists; split; [reflexivity|]; cbn;
    repeat split; try tauto; try discriminate; intros [H _]; discriminate.
  destruct (muxSignature request) as [header|];
    [destruct (string_truthy header)|]; cbn [negb andb].
  2,3: intros _; eexists; split; [reflexivity|]; cbn;
    repeat split; try tauto; try discriminate; intros [_ [H _]]; discriminate.
  destruct (request_json w (raw_body request)) as [payload|].
  - destruct (verifySignature w (JSON_stringify w payload) header secret); [discriminate|].
    intros _. cbn [negb]. eexists. split; [reflexivity|]. cbn.
    repeat split; try tauto; try discriminate. intros [_ [_ H]]. discriminate.
  - intros _. eexists. split; [reflexivity|]. cbn.
    repeat split; try tauto; discriminate.
Qed.

Lemma unauthenticated_request_touches_nothing_witness :
  exists r,
    POST (test_world no_uploads) (signed_request errored_text "{") (initial [row_with_asset])
    = Ok r (initial [row_with_asset]) /\
    In (status r) [500; 401; 400] /\
    (status r = 500 <-> option_truthy (SIGNING_SECRET (test_world no_uploads)) = false) /\
    (status r = 400 <->
     option_truthy (SIGNING_SECRET (test_world no_uploads)) = true /\
     option_truthy (muxSignature (signed_request errored_text "{")) = true /\
     request_json (test_world no_uploads) (raw_body (signed_request errored_text "{")) = None).
Proof.
  apply (unauthenticated_request_touches_nothing (test_world no_uploads)
           (signed_request errored_text "{") (initial [row_with_asset])).
  vm_compute. reflexivity.
Defined.

(** X2.  An authenticated payload without a truthy [type] is answered with
    nothing done: 400 "Missing event type", except for the payload [null],
    where reading [payload.type] throws and the outer [catch] answers 500. *)
Theorem envelope_without_type (w : World) (request : Request) (s : State)
  (payload : JValue) :
  authenticated w request = Some payload ->
  truthy (opt_prop (Some payload) "type") = false ->
  POST w request s
  = Ok (match payload with
        | JNull => internal_server_error
        | _ => mk_response 400 "Missing event type"
        end) s.
Proof.
  intros Hauth Htype. rewrite (POST_authenticated _ _ _ _ Hauth).
  unfold try_catch, process. run.
  destruct payload as [| | | | |members]; try reflexivity.
  cbn [opt_prop prop] in Htype. rewrite Htype. reflexivity.
Qed.

Lemma envelope_without_type_witness :
  POST (test_world no_uploads) (signed_request "null" "null") (initial [row_with_asset])
  = Ok internal_server_error (initial [row_with_asset]) /\
  POST (test_world no_uploads) (signed_request untyped_text untyped_text)
       (initial [row_with_asset])
  = Ok (mk_response 400 "Missing event type") (initial [row_with_asset]).
Proof.
  split.
  - apply (envelope_without_type (test_world no_uploads) (signed_request "null" "null")
             (initial [row_with_asset]) JNull).
    + vm_compute. reflexivity.
    + reflexivity.
  - apply (envelope_without_type (test_world no_uploads)
             (signed_request untyped_text untyped_text) (initial [row_with_asset])
             (JObj [("data", JObj [("upload_id", JStr "up_1")])])).
    + vm_compute. reflexivity.
    + reflexivity.
Defined.

(** X3.  An authenticated event whose [type] is truthy and is none of the
    five names of the [switch] (a string or not) takes the [default] branch:
    it is acknowledged with 200 and nothing is looked up or written. *)
Theorem other_kinds_are_acknowledged (w : World) (request : Request) (s : State)
  (payload : JValue) :
  authenticated w request = Some payload ->
  truthy (prop payload "type") = true ->
  (forall kind, In kind handled_kinds -> prop payload "type" <> Some (JStr kind)) ->
  POST w request s = Ok ok_200 s.
Proof.
  intros Hauth Htruthy Hother. rewrite (POST_authenticated _ _ _ _ Hauth).
  unfold try_catch, process.
  destruct payload as [| | | | |members]; try discriminate.
  run. cbn [prop] in *. rewrite Htruthy. cbv beta iota delta [negb].
  assert (Hd : dispatch w (member "type" members) (JObj members) = ret Break).
  { unfold dispatch. destruct (member "type" members) as [[| | |t| |]|]; try reflexivity.
    destruct (String.eqb t "video.asset.created") eqn:E1.
    { apply String.eqb_eq in E1. subst t. exfalso.
      apply (Hother "video.asset.created"); [cbn; tauto|reflexivity]. }
    destruct (String.eqb t "video.asset.ready") eqn:E2.
    { apply String.eqb_eq in E2. subst t. exfalso.
      apply (Hother "video.asset.ready"); [cbn; tauto|reflexivity]. }
    destruct (String.eqb t "video.asset.errored") eqn:E3.
    { apply String.eqb_eq in E3. subst t. exfalso.
      apply (Hother "video.asset.errored"); [cbn; tauto|reflexivity]. }
    destruct (String.eqb t "video.asset.deleted") eqn:E4.
    { apply String.eqb_eq in E4. subst t. exfalso.
      apply (Hother "video.asset.deleted"); [cbn; tauto|reflexivity]. }
    destruct (String.eqb t "video.asset.track.ready") eqn:E5.
    { apply String.eqb_eq in E5. subst t. exfalso.
      apply (Hother "video.asset.track.ready"); [cbn; tauto|reflexivity]. }
    reflexivity. }
  rewrite Hd. reflexivity.
Qed.

Lemma other_kinds_are_acknowledged_witness :
  POST (test_world no_uploads) (signed_request upload_created_text upload_created_text)
       (initial [row_with_asset])
  = Ok ok_200 (initial [row_with_asset]).
Proof.
  apply (other_kinds_are_acknowledged (test_world no_uploads)
           (signed_request upload_created_text upload_created_text)
           (initial [row_with_asset])
           (JObj [("type", JStr "video.upload.created");
                  ("data", JObj [("id", JStr "up_1")])])).
  - vm_compute. reflexivity.
  - reflexivity.
  - intros kind Hin. repeat (destruct Hin as [<-|Hin]; [discriminate|]). destruct Hin.
Defined.

(** ** The lookup *)

(** The three handlers that update by one key are [keyed_outcome] on an
    event that carries the key. *)
Lemma asset_created_outcome (w : World) (payload data : JValue) (uid : string)
  (aid st : option string) (s : State) :
  prop payload "data" = Some data ->
  prop data "upload_id" = Some (JStr uid) ->
  string_truthy uid = true ->
  typed_string (prop data "id") = Some aid ->
  typed_string (prop data "status") = Some st ->
  asset_created w payload s
  = keyed_outcome w videos.MuxUploadId uid (created_set aid st) s.
Proof.
  intros Hdata Huid Tuid Haid Hst. unfold asset_created. rewrite Hdata.
  destruct data as [| | | | |members]; try discriminate.
  cbn [prop] in *. unfold string_truthy in Tuid.
  run. rewrite Huid. cbn [truthy]. rewrite Tuid. cbv beta iota delta [negb].
  unfold keyed_outcome. cbv zeta.
  destruct (db_throws w (clock s)); [reflexivity|].
  destruct (videos.select_one videos.MuxUploadId uid (table s)); [|reflexivity].
  rewrite (as_optional_string_typed _ _ _ Haid). cbv beta iota.
  rewrite (as_optional_string_typed _ _ _ Hst). cbv beta iota.
  run. unfold created_set, refused. cbn [videos.set_duration orb].
  destruct (db_throws w _); reflexivity.
Qed.

Lemma asset_errored_outcome (w : World) (payload data : JValue) (uid : string)
  (st : option string) (s : State) :
  prop payload "data" = Some data ->
  prop data "upload_id" = Some (JStr uid) ->
  string_truthy uid = true ->
  typed_string (prop data "status") = Some st ->
  asset_errored w payload s
  = keyed_outcome w videos.MuxUploadId uid (errored_set st) s.
Proof.
  intros Hdata Huid Tuid Hst. unfold asset_errored. rewrite Hdata.
  destruct data as [| | | | |members]; try discriminate.
  cbn [prop] in *. unfold string_truthy in Tuid.
  run. rewrite Huid. cbn [truthy]. rewrite Tuid. cbv beta iota delta [negb].
  unfold keyed_outcome. cbv zeta.
  destruct (db_throws w (clock s)); [reflexivity|].
  destruct (videos.select_one videos.MuxUploadId uid (table s)); [|reflexivity].
  rewrite (as_optional_string_typed _ _ _ Hst). cbv beta iota.
  run. unfold errored_set, refused. cbn [videos.set_duration orb].
  destruct (db_throws w _); reflexivity.
Qed.

Lemma asset_track_ready_outcome (w : World) (payload data : JValue) (assetId : string)
  (trackId st : option string) (s : State) :
  prop payload "data" = Some data ->
  prop data "asset_id" = Some (JStr assetId) ->
  string_truthy assetId = true ->
  typed_string (prop data "id") = Some trackId ->
  typed_string (prop data "status") = Some st ->
  asset_track_ready w payload s
  = keyed_outcome w videos.MuxAssetId assetId (track_set trackId st) s.
Proof.
  intros Hdata Hkey Tkey Hid Hst. unfold asset_track_ready. rewrite Hdata.
  destruct data as [| | | | |members]; try discriminate.
  cbn [prop] in *. unfold string_truthy in Tkey.
  run. rewrite Hkey. cbn [truthy]. rewrite Tkey. cbv beta iota delta [negb].
  unfold keyed_outcome. cbv zeta.
  destruct (db_throws w (clock s)); [reflexivity|].
  destruct (videos.select_one videos.MuxAssetId assetId (table s)); [|reflexivity].
  rewrite (as_optional_string_typed _ _ _ Hid). cbv beta iota.
  rewrite (as_optional_string_typed _ _ _ Hst). cbv beta iota.
  run. unfold track_set, refused. cbn [videos.set_duration orb].
  destruct (db_throws w _); reflexivity.
Qed.

(** [POST] on an authenticated event with a string [type]. *)
Lemma POST_dispatch (w : World) (request : Request) (s : State) (payload : JValue)
  (kind : string) :
  authenticated w request = Some payload ->
  prop payload "type" = Some (JStr kind) ->
  string_truthy kind = true ->
  POST w request s =
  match answer (dispatch w (Some (JStr kind)) payload s) with
  | Thrown s' => Ok internal_server_error s'
  | o => o
  end.
Proof.
  intros Hauth Htype Tkind.
  rewrite (POST_authenticated _ _ _ _ Hauth). unfold try_catch.
  rewrite (process_dispatch w payload kind s Htype Tkind).
  destruct (dispatch w (Some (JStr kind)) payload s) as [[r|] s'|s'|]; reflexivity.
Qed.

(** X4.  An authenticated event of one of the five kinds whose [data] is
    absent or [null]: reading the key off [data] throws inside the handler's
    [try], so the four handlers that update answer 500 and the deleted
    handler, whose [catch] does not return, answers 200.  Nothing is looked
    up or written. *)
Theorem event_without_data (w : World) (request : Request) (s : State)
  (payload : JValue) (kind : string) :
  authenticated w request = Some payload ->
  prop payload "type" = Some (JStr kind) ->
  In kind handled_kinds ->
  prop payload "data" = None \/ prop payload "data" = Some JNull ->
  POST w request s
  = Ok (if String.eqb kind "video.asset.deleted" then ok_200 else internal_server_error) s.
Proof.
  intros Hauth Htype Hkind Hdata.
  assert (Hrun : forall handler,
             dispatch w (Some (JStr kind)) payload = handler w payload ->
             string_truthy kind = true ->
             forall o, handler w payload s = Ok o s ->
             POST w request s = answer (Ok o s)).
  { intros handler Hd Tk o Ho.
    rewrite (POST_dispatch w request s payload kind Hauth Htype Tk), Hd, Ho.
    destruct o; reflexivity. }
  cbn [handled_kinds In] in Hkind.
  destruct Hkind as [<-|[<-|[<-|[<-|[<-|[]]]]]]; cbn [String.eqb Ascii.eqb Bool.eqb].
  - apply (Hrun asset_created eq_refl eq_refl (Return internal_server_error)).
    unfold asset_created. destruct Hdata as [-> | ->]; reflexivity.
  - apply (Hrun asset_ready eq_refl eq_refl (Return internal_server_error)).
    unfold asset_ready. destruct Hdata as [-> | ->]; reflexivity.
  - apply (Hrun asset_errored eq_refl eq_refl (Return internal_server_error)).
    unfold asset_errored. destruct Hdata as [-> | ->]; reflexivity.
  - apply (Hrun asset_deleted eq_refl eq_refl Break).
    unfold asset_deleted. destruct Hdata as [-> | ->]; reflexivity.
  - apply (Hrun asset_track_ready eq_refl eq_refl (Return internal_server_error)).
    unfold asset_track_ready. destruct Hdata as [-> | ->]; reflexivity.
Qed.

Lemma event_without_data_witness :
  POST (test_world no_uploads)
       (signed_request created_without_data_text created_without_data_text)
       (initial [row_with_asset])
  = Ok internal_server_error (initial [row_with_asset]) /\
  POST (test_world no_uploads)
       (signed_request deleted_without_data_text deleted_without_data_text)
       (initial [row_with_asset])
  = Ok ok_200 (initial [row_with_asset]).
Proof.
  split.
  - apply (event_without_data (test_world no_uploads)
             (signed_request created_without_data_text created_without_data_text)
             (initial [row_with_asset])
             (JObj [("type", JStr "video.asset.created")]) "video.asset.created").
    + vm_compute. reflexivity.
    + reflexivity.
    + left. reflexivity.
    + left. reflexivity.
  - apply (event_without_data (test_world no_uploads)
             (signed_request deleted_without_data_text deleted_without_data_text)
             (initial [row_with_asset])
             (JObj [("type", JStr "video.asset.deleted"); ("data", JNull)])
             "video.asset.deleted").
    + vm_compute. reflexivity.
    + reflexivity.
    + right; right; right; left. reflexivity.
    + right. reflexivity.
Defined.

Lemma key_of_inv (c c' : videos.column) (v : value) (k : string) :
  key_of c v = Some (c', k) -> c' = c /\ v = Some (JStr k) /\ string_truthy k = true.
Proof.
  unfold key_of. destruct v as [[| | |x| |]|]; try discriminate.
  destruct (string_truthy x) eqn:T; [|discriminate].
  intros H; injection H as <- <-. auto.
Qed.

(** X5.  The lookup of the four handlers that update.  [lookup_of] is the
    query an event leads to once its key (and, for a ready event, its first
    playback id) is there.  When that query throws the answer is 500, when
    it finds no row the answer is 404; either way the query is the only call
    made, and the table is what it was. *)
Theorem lookup_failure_and_miss (w : World) (request : Request) (s : State)
  (payload : JValue) (c : videos.column) (key : string) :
  authenticated w request = Some payload ->
  lookup_of payload = Some (c, key) ->
  (db_throws w (clock s) = true ->
   POST w request s = Ok internal_server_error (called (CallSelect c key) s)) /\
  (db_throws w (clock s) = false ->
   videos.select_one c key (table s) = None ->
   POST w request s = Ok video_not_found (called (CallSelect c key) s)).
Proof.
  intros Hauth Hlookup. unfold lookup_of in Hlookup.
  destruct (prop payload "type") as [[| | |kind| |]|] eqn:Htype; try discriminate.
  cbv zeta in Hlookup.
  assert (Hrun : forall handler,
             dispatch w (Some (JStr kind)) payload = handler ->
             string_truthy kind = true ->
             forall o, handler s = Ok (Return o) (called (CallSelect c key) s) ->
             POST w request s = Ok o (called (CallSelect c key) s)).
  { intros handler Hd Tk o Ho.
    rewrite (POST_dispatch w request s payload kind Hauth Htype Tk), Hd, Ho. reflexivity. }
  unfold dispatch in Hrun.
  destruct (String.eqb kind "video.asset.created") eqn:E1.
  { apply String.eqb_eq in E1. subst kind. cbn [orb] in Hlookup.
    destruct (prop payload "data") as [[| | | | |members]|] eqn:Hdata; try discriminate.
    cbn [opt_prop prop] in Hlookup. apply key_of_inv in Hlookup.
    destruct Hlookup as [-> [Hkey Tkey]]. unfold string_truthy in Tkey.
    split; [intros Hdb|intros Hdb Hsel]; apply (Hrun _ eq_refl eq_refl);
      unfold asset_created; rewrite Hdata; run; rewrite Hkey; cbn [truthy];
      rewrite Tkey; cbv beta iota delta [negb]; rewrite Hdb; try rewrite Hsel; reflexivity. }
  destruct (String.eqb kind "video.asset.errored") eqn:E2.
  { apply String.eqb_eq in E2. subst kind. cbn [orb] in Hlookup.
    destruct (prop payload "data") as [[| | | | |members]|] eqn:Hdata; try discriminate.
    cbn [opt_prop prop] in Hlookup. apply key_of_inv in Hlookup.
    destruct Hlookup as [-> [Hkey Tkey]]. unfold string_truthy in Tkey.
    split; [intros Hdb|intros Hdb Hsel]; apply (Hrun _ eq_refl eq_refl);
      unfold asset_errored; rewrite Hdata; run; rewrite Hkey; cbn [truthy];
      rewrite Tkey; cbv beta iota delta [negb]; rewrite Hdb; try rewrite Hsel; reflexivity. }
  cbn [orb] in Hlookup.
  destruct (String.eqb kind "video.asset.ready") eqn:E3.
  { apply String.eqb_eq in E3. subst kind.
    destruct (prop payload "data") as [[| | | | |members]|] eqn:Hdata; try discriminate.
    cbn [opt_prop prop] in Hlookup.
    destruct (opt_prop (opt_index0 (member "playback_ids" members)) "id")
      as [[| | |pid| |]|] eqn:Hpid; try discriminate.
    destruct (string_truthy pid) eqn:Tpid; [|discriminate].
    apply key_of_inv in Hlookup.
    destruct Hlookup as [-> [Hkey Tkey]]. unfold string_truthy in Tkey, Tpid.
    split; [intros Hdb|intros Hdb Hsel]; apply (Hrun _ eq_refl eq_refl);
      unfold asset_ready; rewrite Hdata; run; rewrite Hkey; cbn [truthy];
      rewrite Tkey; cbv beta iota delta [negb]; rewrite Hpid; cbn [truthy];
      rewrite Tpid; cbv beta iota delta [negb]; rewrite Hdb; try rewrite Hsel; reflexivity. }
  destruct (String.eqb kind "video.asset.track.ready") eqn:E4; [|discriminate].
  apply String.eqb_eq in E4. subst kind.
  destruct (prop payload "data") as [[| | | | |members]|] eqn:Hdata; try discriminate.
  cbn [opt_prop prop] in Hlookup. apply key_of_inv in Hlookup.
  destruct Hlookup as [-> [Hkey Tkey]]. unfold string_truthy in Tkey.
  split; [intros Hdb|intros Hdb Hsel]; apply (Hrun _ eq_refl eq_refl);
    unfold asset_track_ready; rewrite Hdata; run; rewrite Hkey; cbn [truthy];
    rewrite Tkey; cbv beta iota delta [negb]; rewrite Hdb; try rewrite Hsel; reflexivity.
Qed.

Lemma lookup_failure_and_miss_witness :
  POST (failing_at 0 no_uploads) (signed_request errored_text errored_text) (initial [row_with_asset])
  = Ok internal_server_error
       (called (CallSelect videos.MuxUploadId "up_1") (initial [row_with_asset])) /\
  POST (test_world no_uploads) (signed_request track_ready_text track_ready_text)
       (initial [new_row "v1" "up_1"])
  = Ok video_not_found
       (called (CallSelect videos.MuxAssetId "asset_1") (initial [new_row "v1" "up_1"])).
Proof.
  split.
  - apply (lookup_failure_and_miss (failing_at 0 no_uploads) (signed_request errored_text errored_text)
             (initial [row_with_asset])
             (JObj [("type", JStr "video.asset.errored");
                    ("data", JObj [("upload_id", JStr "up_1"); ("status", JStr "errored")])])
             videos.MuxUploadId "up_1").
    + vm_compute. reflexivity.
    + reflexivity.
    + reflexivity.
  - apply (lookup_failure_and_miss (test_world no_uploads)
             (signed_request track_ready_text track_ready_text)
             (initial [new_row "v1" "up_1"])
             (JObj [("type", JStr "video.asset.track.ready");
                    ("data", JObj [("asset_id", JStr "asset_1"); ("id", JStr "track_1");
                                   ("status", JStr "ready")])])
             videos.MuxAssetId "asset_1").
    + vm_compute. reflexivity.
    + reflexivity.
    + reflexivity.
    + reflexivity.
Defined.

(** ** What each handler writes *)

Lemma eq_asset_id (v : string) (r : videos.row) :
  videos.eq videos.MuxAssetId v r = true <-> videos.muxAssetId r = Some v.
Proof.
  unfold videos.eq. destruct (videos.muxAssetId r) as [x|].
  - rewrite String.eqb_eq. split; [intros ->; reflexivity|intros H; injection H as ->; reflexivity].
  - split; discriminate.
Qed.

(** [keyed_outcome] when the store answers and a row has the key. *)
Lemma keyed_outcome_updates (w : World) (c : videos.column) (key : string)
  (set_at : Z -> videos.update_set) (s : State) :
  db_throws w (clock s) = false ->
  db_throws w (S (clock s)) = false ->
  refused (set_at (now w (S (clock s)))) = false ->
  (exists r, In r (table s) /\ videos.eq c key r = true) ->
  keyed_outcome w c key set_at s
  = Ok Break
      {| table := videos.update_where c key (set_at (now w (S (clock s)))) (table s);
         clock := S (S (clock s));
         calls := (calls s ++ [CallSelect c key;
                               CallUpdate c key (set_at (now w (S (clock s))))])%list |}.
Proof.
  intros D1 D2 Href Hrow. unfold keyed_outcome. rewrite D1.
  destruct (select_one_some c key (table s) Hrow) as [r0 ->].
  cbn [clock called]. rewrite D2, Href. cbn [orb].
  unfold with_table, called. cbn [table clock calls]. rewrite <- app_assoc. reflexivity.
Qed.

(** X6.  [video.asset.created] on a store that answers and holds a row with
    the event's upload id: the answer is 200, the calls are the select and
    one update, and every row with that upload id gets the event's asset id
    and status (a field the event lacks leaves its column) and the date of
    the update; its other columns and the other rows are what they were. *)
Theorem asset_created_effect (w : World) (request : Request) (s : State)
  (payload data : JValue) (uid : string) (aid st : option string) :
  authenticated w request = Some payload ->
  prop payload "type" = Some (JStr "video.asset.created") ->
  prop payload "data" = Some data ->
  prop data "upload_id" = Some (JStr uid) ->
  string_truthy uid = true ->
  typed_string (prop data "id") = Some aid ->
  typed_string (prop data "status") = Some st ->
  db_throws w (clock s) = false ->
  db_throws w (S (clock s)) = false ->
  (exists r, In r (table s) /\ videos.muxUploadId r = Some uid) ->
  exists s',
    POST w request s = Ok ok_200 s' /\
    calls s' = (calls s ++ [CallSelect videos.MuxUploadId uid;
                            CallUpdate videos.MuxUploadId uid
                              (created_set aid st (now w (S (clock s))))])%list /\
    updated_rows videos.MuxUploadId uid
      (fun r r' => videos.muxAssetId r' = videos.assign aid (videos.muxAssetId r) /\
                   videos.muxStatus r' = videos.assign st (videos.muxStatus r) /\
                   videos.updatedAt r' = now w (S (clock s)) /\
                   forget_created r' = forget_created r)
      (table s) (table s').
Proof.
  intros Hauth Htype Hdata Huid Tuid Haid Hst D1 D2 [r [Hin Hr]].
  rewrite (POST_dispatch w request s payload _ Hauth Htype eq_refl).
  change (dispatch w (Some (JStr "video.asset.created")) payload)
    with (asset_created w payload).
  rewrite (asset_created_outcome w payload data uid aid st s Hdata Huid Tuid Haid Hst).
  rewrite (keyed_outcome_updates w _ _ _ s D1 D2); [|reflexivity|].
  2:{ exists r. split; [exact Hin|]. apply eq_upload_id. exact Hr. }
  cbn [answer]. eexists. split; [reflexivity|]. split; [reflexivity|]. cbn [table].
  apply update_where_updated_rows. intros r0 _. repeat split.
Qed.

Lemma asset_created_effect_witness :
  exists s',
    POST (test_world no_uploads)
         (signed_request created_other_asset_text created_other_asset_text)
         (initial [new_row "v0" "up_0"; row_with_asset])
    = Ok ok_200 s' /\
    calls s' = [CallSelect videos.MuxUploadId "up_1";
                CallUpdate videos.MuxUploadId "up_1"
                  (created_set (Some "asset_2") (Some "preparing") 1001)] /\
    updated_rows videos.MuxUploadId "up_1"
      (fun r r' => videos.muxAssetId r' = Some "asset_2" /\
                   videos.muxStatus r' = Some "preparing" /\
                   videos.updatedAt r' = 1001 /\
                   forget_created r' = forget_created r)
      [new_row "v0" "up_0"; row_with_asset] (table s').
Proof.
  apply (asset_created_effect (test_world no_uploads)
           (signed_request created_other_asset_text created_other_asset_text)
           (initial [new_row "v0" "up_0"; row_with_asset])
           (JObj [("type", JStr "video.asset.created");
                  ("data", JObj [("upload_id", JStr "up_1"); ("id", JStr "asset_2");
                                 ("status", JStr "preparing")])])
           (JObj [("upload_id", JStr "up_1"); ("id", JStr "asset_2");
                  ("status", JStr "preparing")])
           "up_1" (Some "asset_2") (Some "preparing")).
  - vm_compute. reflexivity.
  - reflexivity.
  - reflexivity.
  - reflexivity.
  - reflexivity.
  - reflexivity.
  - reflexivity.
  - reflexivity.
  - reflexivity.
  - exists row_with_asset. split; [right; left; reflexivity|reflexivity].
Defined.

(** X7.  [video.asset.errored], likewise: the rows with the event's upload
    id get the event's status and the date of the update, nothing else
    changes, and the calls are the select and the update. *)
Theorem asset_errored_effect (w : World) (request : Request) (s : State)
  (payload data : JValue) (uid : string) (st : option string) :
  authenticated w request = Some payload ->
  prop payload "type" = Some (JStr "video.asset.errored") ->
  prop payload "data" = Some data ->
  prop data "upload_id" = Some (JStr uid) ->
  string_truthy uid = true ->
  typed_string (prop data "status") = Some st ->
  db_throws w (clock s) = false ->
  db_throws w (S (clock s)) = false ->
  (exists r, In r (table s) /\ videos.muxUploadId r = Some uid) ->
  exists s',
    POST w request s = Ok ok_200 s' /\
    calls s' = (calls s ++ [CallSelect videos.MuxUploadId uid;
                            CallUpdate videos.MuxUploadId uid
                              (errored_set st (now w (S (clock s))))])%list /\
    updated_rows videos.MuxUploadId uid
      (fun r r' => videos.muxStatus r' = videos.assign st (videos.muxStatus r) /\
                   videos.updatedAt r' = now w (S (clock s)) /\
                   forget_errored r' = forget_errored r)
      (table s) (table s').
Proof.
  intros Hauth Htype Hdata Huid Tuid Hst D1 D2 [r [Hin Hr]].
  rewrite (POST_dispatch w request s payload _ Hauth Htype eq_refl).
  change (dispatch w (Some (JStr "video.asset.errored")) payload)
    with (asset_errored w payload).
  rewrite (asset_errored_outcome w payload data uid st s Hdata Huid Tuid Hst).
  rewrite (keyed_outcome_updates w _ _ _ s D1 D2); [|reflexivity|].
  2:{ exists r. split; [exact Hin|]. apply eq_upload_id. exact Hr. }
  cbn [answer]. eexists. split; [reflexivity|]. split; [reflexivity|]. cbn [table].
  apply update_where_updated_rows. intros r0 _. repeat split.
Qed.

Lemma asset_errored_effect_witness :
  exists s',
    POST (test_world no_uploads) (signed_request errored_text errored_text)
         (initial [new_row "v0" "up_0"; row_with_asset])
    = Ok ok_200 s' /\
    calls s' = [CallSelect videos.MuxUploadId "up_1";
                CallUpdate videos.MuxUploadId "up_1" (errored_set (Some "errored") 1001)] /\
    updated_rows videos.MuxUploadId "up_1"
      (fun r r' => videos.muxStatus r' = Some "errored" /\
                   videos.updatedAt r' = 1001 /\
                   forget_errored r' = forget_errored r)
      [new_row "v0" "up_0"; row_with_asset] (table s').
Proof.
  apply (asset_errored_effect (test_world no_uploads)
           (signed_request errored_text errored_text)
           (initial [new_row "v0" "up_0"; row_with_asset])
           (JObj [("type", JStr "video.asset.errored");
                  ("data", JObj [("upload_id", JStr "up_1"); ("status", JStr "errored")])])
           (JObj [("upload_id", JStr "up_1"); ("status", JStr "errored")])
           "up_1" (Some "errored")).
  - vm_compute. reflexivity.
  - reflexivity.
  - reflexivity.
  - reflexivity.
  - reflexivity.
  - reflexivity.
  - reflexivity.
  - reflexivity.
  - exists row_with_asset. split; [right; left; reflexivity|reflexivity].
Defined.

(** X8.  [video.asset.track.ready], likewise, with the rows found by the
    event's [asset_id] in [muxAssetId]: they get the track id ([data.id]),
    the track status and the date of the update. *)
Theorem asset_track_ready_effect (w : World) (request : Request) (s : State)
  (payload data : JValue) (assetId : string) (trackId st : option string) :
  authenticated w request = Some payload ->
  prop payload "type" = Some (JStr "video.asset.track.ready") ->
  prop payload "data" = Some data ->
  prop data "asset_id" = Some (JStr assetId) ->
  string_truthy assetId = true ->
  typed_string (prop data "id") = Some trackId ->
  typed_string (prop data "status") = Some st ->
  db_throws w (clock s) = false ->
  db_throws w (S (clock s)) = false ->
  (exists r, In r (table s) /\ videos.muxAssetId r = Some assetId) ->
  exists s',
    POST w request s = Ok ok_200 s' /\
    calls s' = (calls s ++ [CallSelect videos.MuxAssetId assetId;
                            CallUpdate videos.MuxAssetId assetId
                              (track_set trackId st (now w (S (clock s))))])%list /\
    updated_rows videos.MuxAssetId assetId
      (fun r r' => videos.muxTrackId r' = videos.assign trackId (videos.muxTrackId r) /\
                   videos.muxTrackStatus r' = videos.assign st (videos.muxTrackStatus r) /\
                   videos.updatedAt r' = now w (S (clock s)) /\
                   forget_track r' = forget_track r)
      (table s) (table s').
Proof.
  intros Hauth Htype Hdata Hkey Tkey Hid Hst D1 D2 [r [Hin Hr]].
  rewrite (POST_dispatch w request s payload _ Hauth Htype eq_refl).
  change (dispatch w (Some (JStr "video.asset.track.ready")) payload)
    with (asset_track_ready w payload).
  rewrite (asset_track_ready_outcome w payload data assetId trackId st s
             Hdata Hkey Tkey Hid Hst).
  rewrite (keyed_outcome_updates w _ _ _ s D1 D2); [|reflexivity|].
  2:{ exists r. split; [exact Hin|]. apply eq_asset_id. exact Hr. }
  cbn [answer]. eexists. split; [reflexivity|]. split; [reflexivity|]. cbn [table].
  apply update_where_updated_rows. intros r0 _. repeat split.
Qed.

Lemma asset_track_ready_effect_witness :
  exists s',
    POST (test_world no_uploads) (signed_request track_ready_text track_ready_text)
         (initial [new_row "v0" "up_0"; row_with_asset])
    = Ok ok_200 s' /\
    calls s' = [CallSelect videos.MuxAssetId "asset_1";
                CallUpdate videos.MuxAssetId "asset_1"
                  (track_set (Some "track_1") (Some "ready") 1001)] /\
    updated_rows videos.MuxAssetId "asset_1"
      (fun r r' => videos.muxTrackId r' = Some "track_1" /\
                   videos.muxTrackStatus r' = Some "ready" /\
                   videos.updatedAt r' = 1001 /\
                   forget_track r' = forget_track r)
      [new_row "v0" "up_0"; row_with_asset] (table s').
Proof.
  apply (asset_track_ready_effect (test_world no_uploads)
           (signed_request track_ready_text track_ready_text)
           (initial [new_row "v0" "up_0"; row_with_asset])
           (JObj [("type", JStr "video.asset.track.ready");
                  ("data", JObj [("asset_id", JStr "asset_1"); ("id", JStr "track_1");
                                 ("status", JStr "ready")])])
           (JObj [("asset_id", JStr "asset_1"); ("id", JStr "track_1");
                  ("status", JStr "ready")])
           "asset_1" (Some "track_1") (Some "ready")).
  - vm_compute. reflexivity.
  - reflexivity.
  - reflexivity.
  - reflexivity.
  - reflexivity.
  - reflexivity.
  - reflexivity.
  - reflexivity.
  - reflexivity.
  - exists row_with_asset. split; [right; left; reflexivity|reflexivity].
Defined.

(** X9.  [video.asset.ready] on a store that answers, whatever the two
    uploads do: the answer is 200 and the calls are, in this order, the
    select, the upload of the thumbnail, the upload of the preview and the
    update.  Every row with the event's upload id gets the status, the
    playback id, the asset id, the duration in milliseconds and the date of
    the update; each (key, url) pair is the one its upload answered when
    both parts are truthy and is the pair the row had otherwise. *)
Theorem asset_ready_effect (w : World) (request : Request) (s : State)
  (payload : JValue) (ev : ReadyEvent) (z : Z) :
  authenticated w request = Some payload ->
  prop payload "type" = Some (JStr "video.asset.ready") ->
  view_ready payload = Some ev ->
  millis_of (ready_duration ev) = Some z ->
  db_throws w (clock s) = false ->
  db_throws w (S (S (S (clock s)))) = false ->
  (exists r, In r (table s) /\ videos.muxUploadId r = Some (ready_upload_id ev)) ->
  exists s',
    POST w request s = Ok ok_200 s' /\
    calls s' = (calls s ++ [CallSelect videos.MuxUploadId (ready_upload_id ev);
                            CallUpload (thumbnail_url (ready_playback_id ev));
                            CallUpload (preview_url (ready_playback_id ev));
                            CallUpdate videos.MuxUploadId (ready_upload_id ev)
                              (ready_set_at w ev s)])%list /\
    updated_rows videos.MuxUploadId (ready_upload_id ev)
      (fun r r' =>
         videos.muxStatus r' = videos.assign (ready_status ev) (videos.muxStatus r) /\
         videos.muxPlaybackId r' = Some (ready_playback_id ev) /\
         videos.muxAssetId r' = videos.assign (ready_asset_id ev) (videos.muxAssetId r) /\
         videos.duration r' = z /\
         (videos.thumbnailKey r', videos.thumbnailUrl r')
         = stored_pair (uploadFilesFromUrl w (S (clock s)) (thumbnail_url (ready_playback_id ev)))
                       (videos.thumbnailKey r) (videos.thumbnailUrl r) /\
         (videos.previewKey r', videos.previewUrl r')
         = stored_pair (uploadFilesFromUrl w (S (S (clock s))) (preview_url (ready_playback_id ev)))
                       (videos.previewKey r) (videos.previewUrl r) /\
         videos.updatedAt r' = now w (S (S (S (clock s)))) /\
         forget_ready r' = forget_ready r)
      (table s) (table s').
Proof.
  intros Hauth Htype Hview Hz D1 D4 [r [Hin Hr]].
  rewrite (POST_ready w request s payload ev Hauth Htype Hview).
  unfold ready_outcome. rewrite D1.
  destruct (select_one_some videos.MuxUploadId (ready_upload_id ev) (table s)) as [r0 ->].
  { exists r. split; [exact Hin|]. apply eq_upload_id. exact Hr. }
  cbn [clock called]. rewrite D4.
  assert (Hset : forall th pv date, refused (ready_set ev th pv date) = false).
  { intros. unfold refused, ready_set. cbn [videos.set_duration]. rewrite Hz. reflexivity. }
  rewrite Hset. cbn [orb]. eexists. split; [reflexivity|]. split.
  - unfold with_table, called. cbn [calls table clock]. rewrite <- !app_assoc. reflexivity.
  - unfold with_table, called. cbn [calls table clock].
    apply update_where_updated_rows. intros r1 _.
    unfold stored_pair, ready_set, videos.apply_set.
    cbn [videos.muxStatus videos.muxPlaybackId videos.muxAssetId videos.duration
         videos.thumbnailKey videos.thumbnailUrl videos.previewKey videos.previewUrl
         videos.updatedAt videos.set_muxStatus videos.set_muxPlaybackId
         videos.set_muxAssetId videos.set_duration videos.set_thumbnailKey
         videos.set_thumbnailUrl videos.set_previewKey videos.set_previewUrl
         videos.set_updatedAt videos.assign_duration videos.assign_time].
    rewrite Hz.
    destruct (uploaded_pair (upload_answer (uploadFilesFromUrl w (S (clock s)) _)))
      as [[k1 u1]|];
      destruct (uploaded_pair (upload_answer (uploadFilesFromUrl w (S (S (clock s))) _)))
        as [[k2 u2]|];
      repeat split.
Qed.

Lemma asset_ready_effect_witness :
  exists s',
    POST (test_world thumbnail_only) (signed_request scenario_text scenario_text)
         (initial [new_row "v0" "up_0"; new_row "v1" "up_1"])
    = Ok ok_200 s' /\
    calls s' = [CallSelect videos.MuxUploadId "up_1";
                CallUpload "https://image.mux.com/pb_1/thumbnail.jpg";
                CallUpload "https://image.mux.com/pb_1/animated.gif";
                CallUpdate videos.MuxUploadId "up_1"
                  (videos.mk_set (Some "asset_1") (Some "ready") (Some "pb_1") None None
                     (Some (Some 12500))
                     (Some "https://utfs.io/f/thumb_key") (Some "thumb_key") None None
                     (Some 1003))] /\
    updated_rows videos.MuxUploadId "up_1"
      (fun r r' =>
         videos.muxStatus r' = Some "ready" /\
         videos.muxPlaybackId r' = Some "pb_1" /\
         videos.muxAssetId r' = Some "asset_1" /\
         videos.duration r' = 12500 /\
         (videos.thumbnailKey r', videos.thumbnailUrl r')
         = (Some "thumb_key", Some "https://utfs.io/f/thumb_key") /\
         (videos.previewKey r', videos.previewUrl r')
         = (videos.previewKey r, videos.previewUrl r) /\
         videos.updatedAt r' = 1003 /\
         forget_ready r' = forget_ready r)
      [new_row "v0" "up_0"; new_row "v1" "up_1"] (table s').
Proof.
  apply (asset_ready_effect (test_world thumbnail_only)
           (signed_request scenario_text scenario_text)
           (initial [new_row "v0" "up_0"; new_row "v1" "up_1"])
           scenario_payload
           (mk_ready "up_1" "pb_1" (Some "asset_1") (Some "ready") (Some (number_of 25 (-1))))
           12500).
  - vm_compute. reflexivity.
  - reflexivity.
  - reflexivity.
  - vm_compute. reflexivity.
  - reflexivity.
  - reflexivity.
  - exists (new_row "v1" "up_1"). split; [right; left; reflexivity|reflexivity].
Defined.

(** X10.  [video.asset.ready] when the update throws after both uploads: the
    answer is 500 and the table is what it was, and the calls made are the
    select, the two uploads and the update.  No [deleteFiles] follows: the
    copies the uploads stored are left behind. *)
Theorem ready_update_failure_leaves_the_copies (w : World) (request : Request) (s : State)
  (payload : JValue) (ev : ReadyEvent) :
  authenticated w request = Some payload ->
  prop payload "type" = Some (JStr "video.asset.ready") ->
  view_ready payload = Some ev ->
  db_throws w (clock s) = false ->
  db_throws w (S (S (S (clock s)))) = true ->
  (exists r, In r (table s) /\ videos.muxUploadId r = Some (ready_upload_id ev)) ->
  exists s',
    POST w request s = Ok internal_server_error s' /\
    table s' = table s /\
    calls s' = (calls s ++ [CallSelect videos.MuxUploadId (ready_upload_id ev);
                            CallUpload (thumbnail_url (ready_playback_id ev));
                            CallUpload (preview_url (ready_playback_id ev));
                            CallUpdate videos.MuxUploadId (ready_upload_id ev)
                              (ready_set_at w ev s)])%list.
Proof.
  intros Hauth Htype Hview D1 D4 [r [Hin Hr]].
  rewrite (POST_ready w request s payload ev Hauth Htype Hview).
  unfold ready_outcome. rewrite D1.
  destruct (select_one_some videos.MuxUploadId (ready_upload_id ev) (table s)) as [r0 ->].
  { exists r. split; [exact Hin|]. apply eq_upload_id. exact Hr. }
  cbn [clock called]. rewrite D4. cbn [orb].
  eexists. split; [reflexivity|]. unfold called. cbn [calls table clock].
  split; [reflexivity|]. rewrite <- !app_assoc. reflexivity.
Qed.

Lemma ready_update_failure_leaves_the_copies_witness :
  exists s',
    POST (failing_at 3 fresh_keys) (signed_request scenario_text scenario_text)
         (initial [new_row "v0" "up_0"; new_row "v1" "up_1"])
    = Ok internal_server_error s' /\
    table s' = [new_row "v0" "up_0"; new_row "v1" "up_1"] /\
    calls s' = [CallSelect videos.MuxUploadId "up_1";
                CallUpload "https://image.mux.com/pb_1/thumbnail.jpg";
                CallUpload "https://image.mux.com/pb_1/animated.gif";
                CallUpdate videos.MuxUploadId "up_1"
                  (videos.mk_set (Some "asset_1") (Some "ready") (Some "pb_1") None None
                     (Some (Some 12500))
                     (Some "https://utfs.io/f/1") (Some "key_1")
                     (Some "https://utfs.io/f/2") (Some "key_2")
                     (Some 1003))].
Proof.
  apply (ready_update_failure_leaves_the_copies (failing_at 3 fresh_keys)
           (signed_request scenario_text scenario_text)
           (initial [new_row "v0" "up_0"; new_row "v1" "up_1"])
           scenario_payload
           (mk_ready "up_1" "pb_1" (Some "asset_1") (Some "ready") (Some (number_of 25 (-1))))).
  - vm_compute. reflexivity.
  - reflexivity.
  - reflexivity.
  - reflexivity.
  - reflexivity.
  - exists (new_row "v1" "up_1"). split; [right; left; reflexivity|reflexivity].
Defined.

(** ** Deletion *)

(** The deleted handler when its select finds [video], and when it finds
    no row. *)
Lemma asset_deleted_found (w : World) (payload data : JValue) (uid : string)
  (video : videos.row) (s : State) :
  prop payload "data" = Some data ->
  prop data "upload_id" = Some (JStr uid) ->
  string_truthy uid = true ->
  db_throws w (clock s) = false ->
  videos.select_one videos.MuxUploadId uid (table s) = Some video ->
  db_throws w (List.length (cleanup_calls video) + S (clock s)) = false ->
  asset_deleted w payload s
  = Ok Break
      {| table := videos.delete_where videos.Id (videos.id video) (table s);
         clock := S (List.length (cleanup_calls video) + S (clock s));
         calls := (calls s ++ [CallSelect videos.MuxUploadId uid] ++ cleanup_calls video
                     ++ [CallDelete videos.Id (videos.id video)])%list |}.
Proof.
  intros Hdata Huid Tuid D1 Hsel D2. unfold asset_deleted. rewrite Hdata.
  destruct data as [| | | | |members]; try discriminate.
  run. cbn [prop] in Huid. rewrite Huid. cbn [truthy].
  unfold string_truthy in Tuid. rewrite Tuid. cbv beta iota delta [negb].
  rewrite D1, Hsel. cbv beta iota. cbn [table clock calls].
  unfold cleanup_calls, cleanup_call in *. unfold cleanup. run.
  destruct (videos.thumbnailKey video) as [k1|];
    [destruct (string_truthy k1); [destruct (deleteFiles_throws w _ k1)|]|];
    cbv beta iota; cbn [table clock calls];
    (destruct (videos.previewKey video) as [k2|];
       [destruct (string_truthy k2); [destruct (deleteFiles_throws w _ k2)|]|]);
    cbv beta iota; cbn [table clock calls];
    cbn [app List.length Nat.add] in D2; rewrite D2;
    cbn [app List.length Nat.add]; rewrite <- ?app_assoc; reflexivity.
Qed.

Lemma asset_deleted_missing (w : World) (payload data : JValue) (uid : string) (s : State) :
  prop payload "data" = Some data ->
  prop data "upload_id" = Some (JStr uid) ->
  string_truthy uid = true ->
  db_throws w (clock s) = false ->
  videos.select_one videos.MuxUploadId uid (table s) = None ->
  db_throws w (S (clock s)) = false ->
  asset_deleted w payload s
  = Ok Break
      {| table := videos.delete_where videos.MuxUploadId uid (table s);
         clock := S (S (clock s));
         calls := (calls s ++ [CallSelect videos.MuxUploadId uid;
                               CallDelete videos.MuxUploadId uid])%list |}.
Proof.
  intros Hdata Huid Tuid D1 Hsel D2. unfold asset_deleted. rewrite Hdata.
  destruct data as [| | | | |members]; try discriminate.
  run. cbn [prop] in Huid. rewrite Huid. cbn [truthy].
  unfold string_truthy in Tuid. rewrite Tuid. cbv beta iota delta [negb].
  rewrite D1, Hsel. cbv beta iota. cbn [table clock calls]. rewrite D2.
  rewrite <- app_assoc. reflexivity.
Qed.

(** X11.  [video.asset.deleted] when the select finds a row and the store
    answers, whatever [deleteFiles] does: the answer is 200; the calls are
    the select, one [deleteFiles] for each truthy key of the row found (the
    thumbnail first) and a delete by the [id] of that row; the table
    afterwards is the table before without the rows of that [id], the others
    as they were. *)
Theorem asset_deleted_effect (w : World) (request : Request) (s : State)
  (payload data : JValue) (uid : string) (video : videos.row) :
  authenticated w request = Some payload ->
  prop payload "type" = Some (JStr "video.asset.deleted") ->
  prop payload "data" = Some data ->
  prop data "upload_id" = Some (JStr uid) ->
  string_truthy uid = true ->
  db_throws w (clock s) = false ->
  videos.select_one videos.MuxUploadId uid (table s) = Some video ->
  db_throws w (List.length (cleanup_calls video) + S (clock s)) = false ->
  exists s',
    POST w request s = Ok ok_200 s' /\
    calls s' = (calls s ++ [CallSelect videos.MuxUploadId uid] ++ cleanup_calls video
                  ++ [CallDelete videos.Id (videos.id video)])%list /\
    table s' = filter (fun r => negb (String.eqb (videos.id r) (videos.id video))) (table s) /\
    ~ In video (table s').
Proof.
  intros Hauth Htype Hdata Huid Tuid D1 Hsel D2.
  rewrite (POST_dispatch w request s payload _ Hauth Htype eq_refl).
  change (dispatch w (Some (JStr "video.asset.deleted")) payload)
    with (asset_deleted w payload).
  rewrite (asset_deleted_found w payload data uid video s Hdata Huid Tuid D1 Hsel D2).
  cbn [answer]. eexists. split; [reflexivity|]. split; [reflexivity|].
  cbn [table]. split; [reflexivity|].
  unfold videos.delete_where. intros Hin. apply filter_In in Hin.
  destruct Hin as [_ Hneq]. cbn [videos.eq] in Hneq. rewrite String.eqb_refl in Hneq.
  discriminate.
Qed.

Lemma asset_deleted_effect_witness :
  exists s',
    POST (test_world no_uploads) (signed_request deleted_up_1_text deleted_up_1_text)
         (initial [new_row "v0" "up_0"; row_with_thumbnail])
    = Ok ok_200 s' /\
    calls s' = [CallSelect videos.MuxUploadId "up_1"; CallDeleteFiles "thumb_key";
                CallDelete videos.Id "v1"] /\
    table s' = [new_row "v0" "up_0"] /\
    ~ In row_with_thumbnail (table s').
Proof.
  apply (asset_deleted_effect (test_world no_uploads)
           (signed_request deleted_up_1_text deleted_up_1_text)
           (initial [new_row "v0" "up_0"; row_with_thumbnail])
           (JObj [("type", JStr "video.asset.deleted");
                  ("data", JObj [("upload_id", JStr "up_1")])])
           (JObj [("upload_id", JStr "up_1")])
           "up_1" row_with_thumbnail).
  - vm_compute. reflexivity.
  - reflexivity.
  - reflexivity.
  - reflexivity.
  - reflexivity.
  - reflexivity.
  - reflexivity.
  - reflexivity.
Defined.

Lemma select_one_none (c : videos.column) (v : string) (t : list videos.row) :
  (forall r, In r t -> videos.eq c v r = false) -> videos.select_one c v t = None.
Proof.
  intros H. unfold videos.select_one.
  destruct (find (videos.eq c v) t) as [r|] eqn:E; [|reflexivity].
  apply find_some in E. destruct E as [Hin Heq]. rewrite (H r Hin) in Heq. discriminate.
Qed.

Lemma delete_where_none (c : videos.column) (v : string) (t : list videos.row) :
  (forall r, In r t -> videos.eq c v r = false) -> videos.delete_where c v t = t.
Proof.
  unfold videos.delete_where. induction t as [|r t IH]; intros H; [reflexivity|].
  cbn [filter]. rewrite (H r (or_introl Logic.eq_refl)). cbn [negb].
  rewrite IH; [reflexivity|]. intros r' Hin. apply H. right. exact Hin.
Qed.

(** X12.  [video.asset.deleted] delivered twice on a store that answers, when
    the rows that share the event's upload id share their [id]: both
    deliveries are answered 200, after the first no row has that upload id,
    and the second changes nothing in the table. *)
Theorem asset_deleted_replay (w : World) (request : Request) (s : State)
  (payload data : JValue) (uid : string) :
  authenticated w request = Some payload ->
  prop payload "type" = Some (JStr "video.asset.deleted") ->
  prop payload "data" = Some data ->
  prop data "upload_id" = Some (JStr uid) ->
  string_truthy uid = true ->
  (forall tick, db_throws w tick = false) ->
  (forall r1 r2, In r1 (table s) -> In r2 (table s) ->
     videos.muxUploadId r1 = Some uid -> videos.muxUploadId r2 = Some uid ->
     videos.id r1 = videos.id r2) ->
  exists s1 s2,
    POST w request s = Ok ok_200 s1 /\
    POST w request s1 = Ok ok_200 s2 /\
    (forall r, In r (table s1) -> videos.muxUploadId r <> Some uid) /\
    table s2 = table s1.
Proof.
  intros Hauth Htype Hdata Huid Tuid Hdb Hunique.
  assert (HP : forall s0,
             POST w request s0 = answer (asset_deleted w payload s0)).
  { intros s0. rewrite (POST_dispatch w request s0 payload _ Hauth Htype eq_refl).
    change (dispatch w (Some (JStr "video.asset.deleted")) payload)
      with (asset_deleted w payload).
    destruct (asset_deleted_breaks w payload data uid s0 Hdata Huid Tuid) as [s' [E _]].
    rewrite E. reflexivity. }
  assert (Hgone : exists s1,
             POST w request s = Ok ok_200 s1 /\
             forall r, In r (table s1) -> videos.eq videos.MuxUploadId uid r = false).
  { rewrite HP.
    destruct (videos.select_one videos.MuxUploadId uid (table s)) as [video|] eqn:Hsel.
    - rewrite (asset_deleted_found w payload data uid video s Hdata Huid Tuid
                 (Hdb _) Hsel (Hdb _)).
      eexists. split; [reflexivity|]. cbn [table]. intros r Hin.
      unfold videos.delete_where in Hin. apply filter_In in Hin. destruct Hin as [Hin Hid].
      cbn [videos.eq] in Hid.
      destruct (videos.eq videos.MuxUploadId uid r) eqn:E; [|reflexivity].
      apply eq_upload_id in E. unfold videos.select_one in Hsel. apply find_some in Hsel.
      destruct Hsel as [Hv Ev]. apply eq_upload_id in Ev.
      rewrite (Hunique r video Hin Hv E Ev), String.eqb_refl in Hid. discriminate.
    - rewrite (asset_deleted_missing w payload data uid s Hdata Huid Tuid
                 (Hdb _) Hsel (Hdb _)).
      eexists. split; [reflexivity|]. cbn [table]. intros r Hin.
      unfold videos.delete_where in Hin. apply filter_In in Hin. destruct Hin as [Hin _].
      unfold videos.select_one in Hsel. exact (find_none _ _ Hsel r Hin). }
  destruct Hgone as [s1 [H1 Hnone]]. exists s1.
  pose proof (select_one_none _ _ _ Hnone) as Hsel1.
  rewrite (HP s1).
  rewrite (asset_deleted_missing w payload data uid s1 Hdata Huid Tuid (Hdb _) Hsel1 (Hdb _)).
  eexists. split; [exact H1|]. split; [reflexivity|]. split.
  - intros r Hin E. apply eq_upload_id in E. rewrite (Hnone r Hin) in E. discriminate.
  - cbn [table]. apply delete_where_none. exact Hnone.
Qed.

Lemma asset_deleted_replay_witness :
  exists s1 s2,
    POST (test_world no_uploads) (signed_request deleted_up_1_text deleted_up_1_text)
         (initial [new_row "v0" "up_0"; row_with_thumbnail])
    = Ok ok_200 s1 /\
    POST (test_world no_uploads) (signed_request deleted_up_1_text deleted_up_1_text) s1
    = Ok ok_200 s2 /\
    (forall r, In r (table s1) -> videos.muxUploadId r <> Some "up_1") /\
    table s2 = table s1.
Proof.
  apply (asset_deleted_replay (test_world no_uploads)
           (signed_request deleted_up_1_text deleted_up_1_text)
           (initial [new_row "v0" "up_0"; row_with_thumbnail])
           (JObj [("type", JStr "video.asset.deleted");
                  ("data", JObj [("upload_id", JStr "up_1")])])
           (JObj [("upload_id", JStr "up_1")])
           "up_1").
  - vm_compute. reflexivity.
  - reflexivity.
  - reflexivity.
  - reflexivity.
  - reflexivity.
  - reflexivity.
  - intros r1 r2 [<-|[<-|[]]] [<-|[<-|[]]]; try discriminate; reflexivity.
Defined.

(** ** The answers of [POST] *)

Section Settles.

Variable w : World.

(** Rules for [settles]. *)
Lemma settles_return (r : Response) :
  In (status r) [400; 404; 500] -> settles (ret (Return r)).
Proof. intros H s. split; [exact H|reflexivity]. Qed.

Lemma settles_break : settles (ret Break).
Proof. intros s. exact I. Qed.

Lemma settles_bind {A : Type} (m : M A) (k : A -> M Flow) :
  reads_only m -> (forall a, settles (k a)) -> settles (bind m k).
Proof.
  intros Hm Hk s. unfold bind. specialize (Hm s).
  destruct (m s) as [a s1|s1|]; [|symmetry; exact Hm|exact I].
  specialize (Hk a s1). destruct (k a s1) as [[r|] s2|s2|]; try exact I.
  - destruct Hk as [Hr Ht]. split; [exact Hr|congruence].
  - congruence.
Qed.

Lemma settles_bind_ret {A : Type} (a : A) (k : A -> M Flow) :
  settles (k a) -> settles (bind (ret a) k).
Proof. intros H s. exact (H s). Qed.

Lemma settles_bind_throw {A : Type} (k : A -> M Flow) : settles (bind throw k).
Proof. intros s. reflexivity. Qed.

Lemma settles_bind_ill_typed {A : Type} (k : A -> M Flow) : settles (bind ill_typed k).
Proof. intros s. exact I. Qed.

Lemma settles_bind_assoc {A B : Type} (m : M A) (f : A -> M B) (k : B -> M Flow) :
  settles (bind m (fun a => bind (f a) k)) -> settles (bind (bind m f) k).
Proof.
  intros H s. specialize (H s). unfold bind in *.
  destruct (m s) as [a s1|s1|]; exact H.
Qed.

(** The [catch] of a handler: a [return] of 500, or (deleted) nothing. *)
Lemma settles_try_catch (m : M Flow) (f : Flow) :
  settles m ->
  match f with Return r => In (status r) [400; 404; 500] | Break => True end ->
  settles (try_catch m (ret f)).
Proof.
  intros Hm Hf s. unfold try_catch. specialize (Hm s).
  destruct (m s) as [[r|] s1|s1|]; try exact Hm.
  destruct f as [r|]; [split; [exact Hf|exact Hm]|exact I].
Qed.

(** The last statement of a handler: the update or the delete, then [break]. *)
Lemma settles_update (c : videos.column) (v : string) (p : videos.update_set) :
  settles (bind (db_update w c v p) (fun _ => ret Break)).
Proof.
  intros s. unfold bind, db_update.
  destruct (db_throws w (clock s) || refused p); [reflexivity|exact I].
Qed.

Lemma settles_delete (c : videos.column) (v : string) :
  settles (bind (db_delete w c v) (fun _ => ret Break)).
Proof.
  intros s. unfold bind, db_delete.
  destruct (db_throws w (clock s)); [reflexivity|exact I].
Qed.

End Settles.

Ltac settle_step :=
  cbv beta iota zeta delta [get prop as_string as_optional_string];
  lazymatch goal with
  | |- PreOrder _ => exact _
  | |- True => exact I
  | |- In _ _ => cbn; tauto
  | |- settles (try_catch _ (ret _)) => apply settles_try_catch
  | |- settles (ret (Return _)) => apply settles_return
  | |- settles (ret Break) => apply settles_break
  | |- settles (bind (ret _) _) => apply settles_bind_ret
  | |- settles (bind throw _) => apply settles_bind_throw
  | |- settles (bind ill_typed _) => apply settles_bind_ill_typed
  | |- settles (bind (bind _ _) _) => apply settles_bind_assoc
  | |- settles (bind (match ?x with _ => _ end) _) => destruct x eqn:?
  | |- settles (bind (db_update _ _ _ _) _) => apply settles_update
  | |- settles (bind (db_delete _ _ _) _) => apply settles_delete
  | |- settles (bind _ _) => apply settles_bind; [unfold reads_only|intro]
  | |- settles (if ?b then _ else _) => destruct b eqn:?
  | |- settles (match ?x with _ => _ end) => destruct x eqn:?
  | |- preserves _ _ => preserve_step
  end.

Ltac settle := repeat settle_step.

Section SettlesHandlers.

Variable w : World.

(** Every handler settles, and so does [POST]: a response other than 200 is
    one of 400, 401, 404 and 500 and comes with the table unchanged. *)
Lemma asset_created_settles (payload : JValue) : settles (asset_created w payload).
Proof. unfold asset_created. settle. Qed.

Lemma asset_ready_settles (payload : JValue) : settles (asset_ready w payload).
Proof. unfold asset_ready. settle. Qed.

Lemma asset_errored_settles (payload : JValue) : settles (asset_errored w payload).
Proof. unfold asset_errored. settle. Qed.

Lemma asset_deleted_settles (payload : JValue) : settles (asset_deleted w payload).
Proof. unfold asset_deleted. settle. Qed.

Lemma asset_track_ready_settles (payload : JValue) : settles (asset_track_ready w payload).
Proof. unfold asset_track_ready. settle. Qed.

Lemma dispatch_settles (eventType : value) (payload : JValue) :
  settles (dispatch w eventType payload).
Proof.
  unfold dispatch.
  destruct eventType as [[| | |t| |]|]; try apply settles_break.
  destruct (String.eqb t "video.asset.created"); [apply asset_created_settles|].
  destruct (String.eqb t "video.asset.ready"); [apply asset_ready_settles|].
  destruct (String.eqb t "video.asset.errored"); [apply asset_errored_settles|].
  destruct (String.eqb t "video.asset.deleted"); [apply asset_deleted_settles|].
  destruct (String.eqb t "video.asset.track.ready"); [apply asset_track_ready_settles|].
  apply settles_break.
Qed.

(** What [POST] answers and whether it touched the table. *)
Lemma POST_settles (request : Request) (s : State) :
  match POST w request s with
  | Ok r s' =>
      In (status r) [200; 400; 401; 404; 500] /\ (status r <> 200 -> table s' = table s)
  | Thrown _ => False
  | IllTyped => True
  end.
Proof.
  unfold POST, try_catch.
  destruct (negb (option_truthy (SIGNING_SECRET w))); [cbn; split; [tauto|reflexivity]|].
  destruct (negb (option_truthy (muxSignature request))); [cbn; split; [tauto|reflexivity]|].
  destruct (request_json w (raw_body request)) as [payload|];
    [|cbn; split; [tauto|reflexivity]].
  cbv zeta. destruct (negb (verifySignature w _ _ _)); [cbn; split; [tauto|reflexivity]|].
  unfold process, get, bind.
  destruct payload as [| | | | |members];
    try (cbn; split; [tauto|reflexivity]).
  unfold ret at 1. cbn [prop].
  destruct (negb (truthy (member "type" members))); [cbn; split; [tauto|reflexivity]|].
  pose proof (dispatch_settles (member "type" members) (JObj members) s) as H.
  destruct (dispatch w (member "type" members) (JObj members) s) as [[r|] s'|s'|].
  - cbn [ret]. destruct H as [Hr Ht]. split; [|intros _; exact Ht].
    cbn in Hr |- *. tauto.
  - cbn. split; [tauto|]. intros Hne. contradiction Hne. reflexivity.
  - cbn. split; [tauto|]. intros _. exact H.
  - exact I.
Qed.

End SettlesHandlers.


(** X14.  A request answered with a status other than 200 leaves the table
    exactly as it was: no handler returns an error after a write that
    succeeded. *)
Theorem only_a_200_changes_the_table (w : World) (request : Request) (s : State) :
  match POST w request s with
  | Ok r s' => status r = 200 \/ table s' = table s
  | _ => True
  end.
Proof.
  pose proof (POST_settles w request s) as H.
  destruct (POST w request s) as [r s'|s'|]; try exact I.
  destruct (Z.eq_dec (status r) 200) as [E|E]; [left; exact E|right; exact (proj2 H E)].
Qed.

(** ** What the table keeps *)

#[export] Instance keeps_pairs_whole_PreOrder : PreOrder keeps_pairs_whole.
Proof.
  split.
  - intros t H. exact H.
  - intros t1 t2 t3 H12 H23 H. exact (H23 (H12 H)).
Qed.

(** Filtering, and the two relations kept by every call of the handler. *)
Lemma filter_all {A : Type} (t : list A) : filter (fun _ => true) t = t.
Proof. induction t as [|a t IH]; [reflexivity|]. cbn. rewrite IH. reflexivity. Qed.

Lemma filter_twice {A : Type} (f g : A -> bool) (t : list A) :
  filter g (filter f t) = filter (fun a => f a && g a) t.
Proof.
  induction t as [|a t IH]; [reflexivity|]. cbn [filter].
  destruct (f a); cbn [andb filter]; [destruct (g a)|]; rewrite IH; reflexivity.
Qed.

#[export] Instance rows_removed_PreOrder : PreOrder rows_removed.
Proof.
  split.
  - intros t. exists (fun _ => true). symmetry. apply filter_all.
  - intros t1 t2 t3 [f ->] [g ->]. exists (fun a => f a && g a). apply filter_twice.
Qed.

Lemma uploaded_pair_whole (u : option (string * string)) (key url : option string) :
  whole key url ->
  whole (videos.assign (option_map fst (uploaded_pair u)) key)
        (videos.assign (option_map snd (uploaded_pair u)) url).
Proof. intros H. destruct (uploaded_pair u) as [[k v]|]; [exact I|exact H]. Qed.

Lemma keeps_pairs_whole_update (c : videos.column) (v : string) (p : videos.update_set)
  (t : list videos.row) :
  (forall r, pairs_whole r -> pairs_whole (videos.apply_set p r)) ->
  keeps_pairs_whole t (videos.update_where c v p t).
Proof.
  intros H Ht. unfold videos.update_where. apply Forall_map.
  apply (Forall_impl _ (P := pairs_whole)); [|exact Ht].
  intros r Hr. destruct (videos.eq c v r); [apply H; exact Hr|exact Hr].
Qed.

Lemma keeps_pairs_whole_delete (c : videos.column) (v : string) (t : list videos.row) :
  keeps_pairs_whole t (videos.delete_where c v t).
Proof.
  intros Ht. unfold videos.delete_where. apply Forall_forall. intros r Hin.
  apply filter_In in Hin. rewrite Forall_forall in Ht. apply Ht. tauto.
Qed.

Ltac pairs_obligations :=
  try (intro; first [apply keeps_pairs_whole_delete
                    | apply keeps_pairs_whole_update; intros ? [? ?];
                      split; first [assumption | apply uploaded_pair_whole; assumption]]).

Section Invariants.

Variable w : World.

Lemma dispatch_keeps_pairs_whole (eventType : value) (payload : JValue) :
  preserves keeps_pairs_whole (dispatch w eventType payload).
Proof.
  unfold dispatch.
  destruct eventType as [[| | |t| |]|]; try (apply preserves_ret; exact _).
  destruct (String.eqb t "video.asset.created");
    [unfold asset_created; preserve; pairs_obligations|].
  destruct (String.eqb t "video.asset.ready");
    [unfold asset_ready; preserve; pairs_obligations|].
  destruct (String.eqb t "video.asset.errored");
    [unfold asset_errored; preserve; pairs_obligations|].
  destruct (String.eqb t "video.asset.deleted");
    [unfold asset_deleted; preserve; pairs_obligations|].
  destruct (String.eqb t "video.asset.track.ready");
    [unfold asset_track_ready; preserve; pairs_obligations|].
  apply preserves_ret. exact _.
Qed.

Lemma asset_deleted_removes (payload : JValue) :
  preserves rows_removed (asset_deleted w payload).
Proof.
  unfold asset_deleted. preserve.
  all: intro; unfold videos.delete_where; eexists; reflexivity.
Qed.

Lemma dispatch_keeps_rows (kind : string) (payload : JValue) :
  kind <> "video.asset.deleted" ->
  preserves (same_under forget_written) (dispatch w (Some (JStr kind)) payload).
Proof.
  intros Hkind. unfold dispatch.
  destruct (String.eqb kind "video.asset.created");
    [unfold asset_created; preserve; frame_obligations|].
  destruct (String.eqb kind "video.asset.ready");
    [unfold asset_ready; preserve; frame_obligations|].
  destruct (String.eqb kind "video.asset.errored");
    [unfold asset_errored; preserve; frame_obligations|].
  destruct (String.eqb kind "video.asset.deleted") eqn:E;
    [apply String.eqb_eq in E; contradiction|].
  destruct (String.eqb kind "video.asset.track.ready");
    [unfold asset_track_ready; preserve; frame_obligations|].
  apply preserves_ret. exact _.
Qed.

End Invariants.

(** X15.  The (key, url) columns are written in pairs: if every row has its
    thumbnail key and url both set or both empty, and likewise its preview
    key and url, then so has every row after any request. *)
Theorem location_pairs_stay_whole (w : World) (request : Request) (s s' : State)
  (resp : Response) :
  POST w request s = Ok resp s' ->
  Forall pairs_whole (table s) ->
  Forall pairs_whole (table s').
Proof.
  intros HP. apply (preserves_Ok keeps_pairs_whole (POST w request) s s' resp); [|exact HP].
  apply POST_preserves; [exact _|]. intros payload _.
  apply process_preserves; [exact _|]. apply dispatch_keeps_pairs_whole.
Qed.

Lemma location_pairs_stay_whole_witness :
  Forall pairs_whole (table ready_state).
Proof.
  apply (location_pairs_stay_whole (test_world thumbnail_only)
           (signed_request scenario_text scenario_text)
           (initial [new_row "v0" "up_0"; new_row "v1" "up_1"]) ready_state ok_200).
  - vm_compute. reflexivity.
  - repeat constructor.
Defined.

(** X16.  A request whose event is not [video.asset.deleted] adds no row and
    removes none, and leaves in every row the [id], the [muxUploadId] and the
    columns the handlers do not name as they were. *)
Theorem rows_stay_unless_deleted (w : World) (request : Request) (s s' : State)
  (resp : Response) :
  POST w request s = Ok resp s' ->
  (forall payload, request_json w (raw_body request) = Some payload ->
                   prop payload "type" <> Some (JStr "video.asset.deleted")) ->
  map forget_written (table s') = map forget_written (table s).
Proof.
  intros HP Hkind.
  apply (preserves_Ok (same_under forget_written) (POST w request) s s' resp); [|exact HP].
  apply POST_preserves; [exact _|]. intros payload Hjson.
  apply process_preserves; [exact _|]. specialize (Hkind payload Hjson).
  destruct (prop payload "type") as [[| | |kind| |]|];
    try (apply preserves_ret; exact _).
  apply dispatch_keeps_rows. intros ->. apply Hkind. reflexivity.
Qed.

Lemma rows_stay_unless_deleted_witness :
  map forget_written (table ready_state)
  = map forget_written [new_row "v0" "up_0"; new_row "v1" "up_1"].
Proof.
  apply (rows_stay_unless_deleted (test_world thumbnail_only)
           (signed_request scenario_text scenario_text)
           (initial [new_row "v0" "up_0"; new_row "v1" "up_1"]) ready_state ok_200).
  - vm_compute. reflexivity.
  - intros payload Hjson.
    assert (E : payload = scenario_payload).
    { vm_compute in Hjson. injection Hjson as <-. vm_compute. reflexivity. }
    rewrite E. discriminate.
Defined.

(** X17.  A [video.asset.deleted] event only removes rows: the table
    afterwards is the table before, filtered; no row is rewritten. *)
Theorem asset_deleted_rewrites_no_row (w : World) (request : Request) (s s' : State)
  (resp : Response) (payload : JValue) :
  POST w request s = Ok resp s' ->
  request_json w (raw_body request) = Some payload ->
  prop payload "type" = Some (JStr "video.asset.deleted") ->
  exists keep : videos.row -> bool, table s' = filter keep (table s).
Proof.
  intros HP Hjson Htype.
  apply (preserves_Ok rows_removed (POST w request) s s' resp); [|exact HP].
  apply POST_preserves; [exact _|]. intros p Hp. rewrite Hjson in Hp. injection Hp as <-.
  apply process_preserves; [exact _|]. rewrite Htype.
  change (dispatch w (Some (JStr "video.asset.deleted")) payload)
    with (asset_deleted w payload).
  apply asset_deleted_removes.
Qed.

Lemma asset_deleted_rewrites_no_row_witness :
  exists keep : videos.row -> bool,
    table deleted_state = filter keep [new_row "v0" "up_0"; row_with_thumbnail].
Proof.
  apply (asset_deleted_rewrites_no_row (test_world no_uploads)
           (signed_request deleted_up_1_text deleted_up_1_text)
           (initial [new_row "v0" "up_0"; row_with_thumbnail]) deleted_state ok_200
           (JObj [("type", JStr "video.asset.deleted");
                  ("data", JObj [("upload_id", JStr "up_1")])])).
  - vm_compute. reflexivity.
  - vm_compute. reflexivity.
  - reflexivity.
Defined.
